(** * rigor: lib/s3.py, the S3 client facade

    A shallow embedding of [BotoS3Client] (lib/s3.py) and proofs about its
    [get], [put], [delete] and [list] operations in both SDK variants.

    Layout:
    - Python values, exceptions and the process/world state;
    - the collaborators the module calls: the configuration object and the
      two SDKs (boto and boto3) talking to one object-storage service;
    - module [S3]: the methods of lib/s3.py, one definition per method;
    - the properties. *)

From Stdlib.Strings Require Import String Ascii Byte.
From stdpp Require Import gmap strings list fin_maps.

Local Open Scope string_scope.

(** ** Python values and exceptions *)

(** The two SDKs the module can run on: boto ("variant A") and boto3
    ("variant B"). *)
Inductive Variant := Boto2 | Boto3.

#[global] Instance Variant_eq_dec : EqDecision Variant.
Proof. solve_decision. Defined.

(** Exceptions that can leave a method of the client. *)
Inductive PyExc :=
  | ClientError (code : string)     (* botocore.exceptions.ClientError: an error response of the service *)
  | EndpointConnectionError         (* botocore: the endpoint could not be reached *)
  | S3ResponseError (status : nat)  (* boto.exception.S3ResponseError *)
  | SocketError                     (* boto: the endpoint could not be reached *)
  | AttributeError (attr : string)  (* an attribute missing on the object, or the message of the raiser *)
  | NameError (name : string)       (* module-level name not bound *)
  | IOError (path : string)         (* local file cannot be opened *)
  | ConfigurationError (section option : string)  (* the configuration lacks the section or the option *)
  | ValueError (message : string)   (* boto: an argument it refuses before any request *)
  | ParamValidationError            (* botocore: a parameter it refuses before any request; not a ClientError *)
  | S3UploadFailedError.            (* boto3: what upload_file raises in place of a ClientError *)

#[global] Instance PyExc_eq_dec : EqDecision PyExc.
Proof. solve_decision. Defined.

(** The errors the SDKs raise for a failed exchange with the service. *)
Definition is_BackendError (e : PyExc) : bool :=
  match e with
  | ClientError _ | EndpointConnectionError | S3ResponseError _ | SocketError
  | S3UploadFailedError => true
  | _ => false
  end.

(** Outcome of a Python call. *)
Inductive result (A : Type) :=
  | Return (a : A)
  | Raise (e : PyExc).
Arguments Return {A} a.
Arguments Raise {A} e.

(** [io.BytesIO]: a byte buffer with a stream position. *)
Record BytesIO := { getvalue : list byte; tell : nat }.

Definition BytesIO_new : BytesIO := {| getvalue := []; tell := 0 |}.

(** [write] overwrites from the current position, padding with zero bytes
    when the position lies beyond the end. *)
Definition BytesIO_write (s : BytesIO) (data : list byte) : BytesIO :=
  {| getvalue := take (tell s) (getvalue s)
                 ++ replicate (tell s - length (getvalue s)) x00
                 ++ data
                 ++ drop (tell s + length data) (getvalue s);
     tell := tell s + length data |}.

Definition BytesIO_seek (s : BytesIO) (offset : nat) : BytesIO :=
  {| getvalue := getvalue s; tell := offset |}.

(** A stream over [content], positioned at its start. *)
Definition BytesIO_of (content : list byte) : BytesIO :=
  {| getvalue := content; tell := 0 |}.

(** What reading the stream yields: the bytes from its position on. *)
Definition BytesIO_read (s : BytesIO) : list byte := drop (tell s) (getvalue s).

(** The stream is at its end with data before it. *)
Definition at_EOF (s : BytesIO) : bool :=
  (tell s =? length (getvalue s))%nat && negb (tell s =? 0)%nat.

(** The [data] argument of [put]: an object with a [read] attribute, that
    is a stream as it stands when [put] is called, or a local path. The
    world does not keep the caller's streams: that a stream has been read
    to its end by a [put] shows in the value the caller passes next. *)
Inductive ObjectData :=
  | FileObj (fileobj : BytesIO)
  | FilePath (path : string).

(** ** Process and world state *)

(** How the service answers at the time of a call. *)
Inductive Condition :=
  | Reachable     (* requests are served *)
  | Unreachable   (* transport failure: no response *)
  | Denied.       (* authentication failure: the service answers 403 *)

#[global] Instance Condition_eq_dec : EqDecision Condition.
Proof. solve_decision. Defined.

Record World := {
  (* lines 6-13: [import boto3] succeeded and bound [boto3]; otherwise
     [S3Connection] and [Key] are the names that were bound *)
  boto3_bound : bool;
  (* ['boto3' in sys.modules], as of now *)
  boto3_in_sys_modules : bool;
  condition : Condition;
  (* the policy of the service refuses to delete objects: the DELETE of a
     key is answered 403, a batch delete 200 with an error entry per key *)
  delete_denied : bool;
  (* the service: bucket name -> object key -> content *)
  buckets : gmap string (gmap string (list byte));
  (* the local file system: path -> content *)
  files : gmap string (list byte);
  (* whether a file can be created or replaced at a path: its directory
     exists *)
  writable : string → bool;
}.

Definition set_buckets (bs : gmap string (gmap string (list byte))) (w : World) : World :=
  {| boto3_bound := boto3_bound w; boto3_in_sys_modules := boto3_in_sys_modules w;
     condition := condition w; delete_denied := delete_denied w;
     buckets := bs; files := files w; writable := writable w |}.

Definition set_files (fs : gmap string (list byte)) (w : World) : World :=
  {| boto3_bound := boto3_bound w; boto3_in_sys_modules := boto3_in_sys_modules w;
     condition := condition w; delete_denied := delete_denied w;
     buckets := buckets w; files := fs; writable := writable w |}.

Definition set_sys_modules (b : bool) (w : World) : World :=
  {| boto3_bound := boto3_bound w; boto3_in_sys_modules := b;
     condition := condition w; delete_denied := delete_denied w;
     buckets := buckets w; files := files w; writable := writable w |}.

(** ** The monad of Python calls: state passing with exceptions.
    The state persists when a call raises. *)
Definition Py (A : Type) : Type := World → result A * World.

#[global] Instance Py_ret : MRet Py := λ A a w, (Return a, w).

#[global] Instance Py_bind : MBind Py := λ A B f m w,
  match m w with
  | (Return a, w') => f a w'
  | (Raise e, w') => (Raise e, w')
  end.

Definition raise {A} (e : PyExc) : Py A := λ w, (Raise e, w).

(** [try: body except <class>: handler], where [catches e] says whether
    [e] is an instance of the class. *)
Definition try_except {A} (body : Py A) (catches : PyExc → bool) (handler : Py A) : Py A :=
  λ w, match body w with
       | (Return a, w') => (Return a, w')
       | (Raise e, w') => if catches e then handler w' else (Raise e, w')
       end.

Definition modify_world (f : World → World) : Py unit := λ w, (Return tt, f w).

(** Runs [body]; when it raises, runs [cleanup] and raises the same
    exception: [try: body except Exception: cleanup; raise]. *)
Definition on_error {A} (body : Py A) (cleanup : World → World) : Py A :=
  λ w, match body w with
       | (Return a, w') => (Return a, w')
       | (Raise e, w') => (Raise e, cleanup w')
       end.

(** ['boto3' in sys.modules] *)
Definition boto3_loaded : Py bool := λ w, (Return (boto3_in_sys_modules w), w).

(** ** The configuration collaborator *)

(** Modelled from the spec: the configuration object
    ([rigor.config.RigorConfiguration], which lib/s3.py only receives) is a
    lookup section -> key -> value whose [get(section, key)] returns the
    string stored there and fails, with the error the spec names
    [ConfigurationError], when the section or the key is absent. *)
Definition config_get (config : gmap string (gmap string string))
    (section option : string) : Py string :=
  match config !! section ≫= (.!! option) with
  | Some value => mret value
  | None => raise (ConfigurationError section option)
  end.

(** ** The SDK collaborators

    boto and boto3 are libraries outside the repository. The definitions
    of this part state what the calls made by lib/s3.py do, call by call:
    which request goes to the service, what it changes there, and what is
    returned or raised. Both SDKs talk to the same service, [buckets] of
    the world; each call that needs the service is answered according to
    [condition]. The objects they hand out are shared by the two models,
    so that a method called on an object of the other SDK fails as
    attribute lookup does. *)

Inductive Connection :=
  | S3ConnectionObj (args : list string)               (* boto: S3Connection applied to the arguments *)
  | S3Resource (keys : option (string * string)).      (* boto3: resource('s3') of a session with explicit or ambient keys *)

Inductive BucketHandle :=
  | Boto2Bucket (name : string)
  | Boto3Bucket (name : string).

#[global] Instance BucketHandle_eq_dec : EqDecision BucketHandle.
Proof. solve_decision. Defined.

Definition bucket_name (b : BucketHandle) : string :=
  match b with Boto2Bucket n | Boto3Bucket n => n end.

Definition handle_variant (b : BucketHandle) : Variant :=
  match b with Boto2Bucket _ => Boto2 | Boto3Bucket _ => Boto3 end.

(** A lazy listing: nothing is requested until it is iterated. *)
Inductive KeyCollection :=
  | Collection (b : BucketHandle) (prefix : option string).

(** The keys a listing request returns: those starting with the prefix,
    all of them without one. *)
Definition keys_under (prefix : option string) (objs : gmap string (list byte)) : list string :=
  filter (λ k, bool_decide (String.prefix (default "" prefix) k = true)) (map_to_list objs).*1.

Definition put_object (name key : string) (content : list byte)
    (objs : gmap string (list byte)) : Py unit :=
  modify_world (λ w, set_buckets (<[name := <[key := content]> objs]> (buckets w)) w).

(** Opening a file for writing fails where no file can be created. *)
Definition open_for_writing (path : string) : Py unit := λ w,
  if writable w path then (Return tt, w) else (Raise (IOError path), w).

Definition write_file (path : string) (content : list byte) : Py unit :=
  open_for_writing path;;
  modify_world (λ w, set_files (<[path := content]> (files w)) w).

Definition remove_file (path : string) (w : World) : World :=
  set_files (delete path (files w)) w.

(** The document the service answers to a GET addressed to a bucket
    itself: the listing of the bucket, abridged here to the name of the
    bucket and the keys. *)
Definition bucket_listing (name : string) (objs : gmap string (list byte)) : list byte :=
  list_byte_of_string
    ("<ListBucketResult><Name>" ++ name ++ "</Name>"
     ++ String.concat "" ((λ k, "<Contents><Key>" ++ k ++ "</Key></Contents>") <$> (map_to_list objs).*1)
     ++ "</ListBucketResult>").

Definition read_file (path : string) : Py (list byte) := λ w,
  match files w !! path with
  | Some content => (Return content, w)
  | None => (Raise (IOError path), w)
  end.

Module Boto3.

(** the module-level name [boto3] *)
Definition name : Py unit := λ w,
  if boto3_bound w then (Return tt, w) else (Raise (NameError "boto3"), w).

(** [boto3.session.Session(aws_access_key_id=.., aws_secret_access_key=..)] *)
Definition Session (access secret : string) : Py (option (string * string)) :=
  name;; mret (Some (access, secret)).

(** [session.resource('s3')] *)
Definition session_resource (session : option (string * string)) : Py Connection :=
  mret (S3Resource session).

(** [boto3.resource('s3')]: ambient credentials *)
Definition resource : Py Connection :=
  name;; mret (S3Resource None).

(** [conn.Bucket(name)]: builds the handle, no request is made *)
Definition Bucket (conn : Connection) (bucket : string) : Py BucketHandle :=
  match conn with
  | S3Resource _ => mret (Boto3Bucket bucket)
  | S3ConnectionObj _ => raise (AttributeError "Bucket")
  end.

Definition handle (attr : string) (b : BucketHandle) : Py string :=
  match b with
  | Boto3Bucket n => mret n
  | Boto2Bucket _ => raise (AttributeError attr)
  end.

(** botocore checks the parameters of a call before it sends anything: an
    object key has at least one character. *)
Definition validate (keys : list string) : Py unit :=
  if forallb (λ k, negb (String.eqb k "")) keys then mret tt
  else raise ParamValidationError.

(** One exchange with the service about a bucket: its objects, or the
    error botocore raises. An error response of the service is a
    [ClientError] carrying its code; no response at all is an
    [EndpointConnectionError], which is not a [ClientError]. *)
Definition request (denied missing : string) (bucket : string)
    : Py (gmap string (list byte)) := λ w,
  match condition w with
  | Unreachable => (Raise EndpointConnectionError, w)
  | Denied => (Raise (ClientError denied), w)
  | Reachable =>
      match buckets w !! bucket with
      | Some objs => (Return objs, w)
      | None => (Raise (ClientError missing), w)
      end
  end.

(** [bucket.download_fileobj(key, fileobj)]: a HEAD then a GET; the
    errors of a HEAD carry the status as code *)
Definition download_fileobj (b : BucketHandle) (key : string) (fileobj : BytesIO)
    : Py BytesIO :=
  n ← handle "download_fileobj" b;
  validate [key];;
  objs ← request "403" "404" n;
  match objs !! key with
  | Some content => mret (BytesIO_write fileobj content)
  | None => raise (ClientError "404")
  end.

(** [bucket.download_file(key, filename)]: the file is opened once the
    HEAD has answered *)
Definition download_file (b : BucketHandle) (key filename : string) : Py unit :=
  n ← handle "download_file" b;
  validate [key];;
  objs ← request "403" "404" n;
  match objs !! key with
  | Some content => write_file filename content
  | None => raise (ClientError "404")
  end.

(** [bucket.upload_fileobj(data, key)]: sends what reading the stream
    from its position yields *)
Definition upload_fileobj (b : BucketHandle) (fileobj : BytesIO) (key : string)
    : Py unit :=
  n ← handle "upload_fileobj" b;
  validate [key];;
  objs ← request "AccessDenied" "NoSuchBucket" n;
  put_object n key (BytesIO_read fileobj) objs.

(** [bucket.upload_file(filename, key)]: the file is looked at first; a
    [ClientError] of the request is raised as [S3UploadFailedError] *)
Definition upload_file (b : BucketHandle) (filename key : string) : Py unit :=
  n ← handle "upload_file" b;
  content ← read_file filename;
  validate [key];;
  objs ← try_except (request "AccessDenied" "NoSuchBucket" n)
            (λ e, match e with ClientError _ => true | _ => false end)
            (raise S3UploadFailedError);
  put_object n key content objs.

(** The [Delete] argument of [delete_objects]. *)
Record ObjectIdentifier := { Key : string }.
Record Delete := { Objects : list ObjectIdentifier }.

(** [bucket.delete_objects(Delete=..)]: one request for all the keys. A
    served request is answered 200 and the call returns its response:
    every listed key is removed, one that is not there counting as
    deleted, unless the service refuses deletions, which it says in the
    response, key by key, removing nothing. *)
Definition delete_objects (b : BucketHandle) (d : Delete) : Py unit :=
  n ← handle "delete_objects" b;
  validate (Key <$> Objects d);;
  objs ← request "AccessDenied" "NoSuchBucket" n;
  (λ w, if delete_denied w then (Return tt, w)
        else (Return tt,
              set_buckets (<[n := foldr delete objs (Key <$> Objects d)]> (buckets w)) w))
  : Py unit.

(** [bucket.objects.all()] and [bucket.objects.filter(Prefix=..)] *)
Definition objects_all (b : BucketHandle) : Py KeyCollection :=
  handle "objects" b;; mret (Collection b None).

Definition objects_filter (b : BucketHandle) (Prefix : string) : Py KeyCollection :=
  handle "objects" b;; mret (Collection b (Some Prefix)).

End Boto3.

Module Boto.

(** [boto.s3.key.Key]: a key object of a bucket *)
Record KeyObj := { key_bucket : BucketHandle; key : option string }.

(** [S3Connection] applied to the arguments: no request is made *)
Definition S3Connection (args : list string) : Py Connection := λ w,
  if boto3_bound w then (Raise (NameError "S3Connection"), w)
  else (Return (S3ConnectionObj args), w).

Definition handle (attr : string) (b : BucketHandle) : Py string :=
  match b with
  | Boto2Bucket n => mret n
  | Boto3Bucket _ => raise (AttributeError attr)
  end.

(** One exchange with the service about a bucket. *)
Definition request (bucket : string) : Py (gmap string (list byte)) := λ w,
  match condition w with
  | Unreachable => (Raise SocketError, w)
  | Denied => (Raise (S3ResponseError 403), w)
  | Reachable =>
      match buckets w !! bucket with
      | Some objs => (Return objs, w)
      | None => (Raise (S3ResponseError 404), w)
      end
  end.

(** What the service holds under a key name of a bucket. boto sends the
    name as it is: the empty name addresses the bucket itself, whose GET
    answers its listing. *)
Definition body (bucket key_name : string) (objs : gmap string (list byte))
    : option (list byte) :=
  if String.eqb key_name "" then Some (bucket_listing bucket objs)
  else objs !! key_name.

(** [conn.get_bucket(name)]: validates the bucket with a request *)
Definition get_bucket (conn : Connection) (bucket : string) : Py BucketHandle :=
  match conn with
  | S3ConnectionObj _ => request bucket;; mret (Boto2Bucket bucket)
  | S3Resource _ => raise (AttributeError "get_bucket")
  end.

(** [bucket.get_key(key)]: a HEAD; status 404 gives [None], any other
    error status is raised *)
Definition get_key (b : BucketHandle) (key_name : string) : Py (option KeyObj) :=
  n ← handle "get_key" b;
  try_except
    (objs ← request n;
     mret ((λ _, {| key_bucket := b; key := Some key_name |}) <$> body n key_name objs))
    (λ e, bool_decide (e = S3ResponseError 404))
    (mret None).

(** [Key(bucket)] *)
Definition Key (b : BucketHandle) : Py KeyObj := λ w,
  if boto3_bound w then (Raise (NameError "Key"), w)
  else (Return {| key_bucket := b; key := None |}, w).

(** [k.key = name] *)
Definition set_key (k : KeyObj) (key_name : string) : KeyObj :=
  {| key_bucket := key_bucket k; key := Some key_name |}.

(** the bucket and name a request of a key object goes to; lib/s3.py
    always names the key before using it *)
Definition target (k : KeyObj) : Py (string * string) :=
  n ← handle "connection" (key_bucket k);
  match key k with
  | Some key_name => mret (n, key_name)
  | None => raise (AttributeError "key")
  end.

(** [k.get_file(fp)] *)
Definition get_file (k : KeyObj) (fp : BytesIO) : Py BytesIO :=
  '(n, key_name) ← target k;
  objs ← request n;
  match body n key_name objs with
  | Some content => mret (BytesIO_write fp content)
  | None => raise (S3ResponseError 404)
  end.

(** [k.get_contents_to_filename(filename)]: opens the file, then
    downloads into it; when the download raises, the file is removed *)
Definition get_contents_to_filename (k : KeyObj) (filename : string) : Py unit :=
  '(n, key_name) ← target k;
  open_for_writing filename;;
  on_error
    (objs ← request n;
     match body n key_name objs with
     | Some content => write_file filename content
     | None => raise (S3ResponseError 404)
     end)
    (remove_file filename).

(** A PUT under a key name: the empty name addresses the bucket itself,
    no object is stored and the answer of the service is not that of an
    upload, which boto raises. *)
Definition send_file (n key_name : string) (content : list byte) : Py unit :=
  objs ← request n;
  if String.eqb key_name "" then raise (S3ResponseError 400)
  else put_object n key_name content objs.

(** [k.set_contents_from_file(fp)]: sends what reading [fp] from its
    position yields, and refuses a stream that is at its end with data
    before it *)
Definition set_contents_from_file (k : KeyObj) (fp : BytesIO) : Py unit :=
  '(n, key_name) ← target k;
  if at_EOF fp
  then raise (AttributeError "fp is at EOF. Use rewind option or seek() to data start.")
  else send_file n key_name (BytesIO_read fp).

(** [k.set_contents_from_filename(filename)] *)
Definition set_contents_from_filename (k : KeyObj) (filename : string) : Py unit :=
  '(n, key_name) ← target k;
  content ← read_file filename;
  send_file n key_name content.

(** [k.delete()]: the empty name is refused before any request; the
    service answers 204 whether or not the key exists, and 403 when it
    refuses deletions *)
Definition delete (k : KeyObj) : Py unit :=
  '(n, key_name) ← target k;
  if String.eqb key_name "" then raise (ValueError "Empty key names are not allowed")
  else
    objs ← request n;
    (λ w, if delete_denied w then (Raise (S3ResponseError 403), w)
          else (Return tt, set_buckets (<[n := base.delete key_name objs]> (buckets w)) w))
    : Py unit.

(** [bucket.list(prefix=..)] *)
Definition list (b : BucketHandle) (prefix : string) : Py KeyCollection :=
  handle "list" b;; mret (Collection b (Some prefix)).

End Boto.

(** Iterating a listing: the request is made now. *)
Definition iterate (c : KeyCollection) : Py (list string) :=
  match c with
  | Collection (Boto3Bucket n) prefix =>
      objs ← Boto3.request "AccessDenied" "NoSuchBucket" n; mret (keys_under prefix objs)
  | Collection (Boto2Bucket n) prefix =>
      objs ← Boto.request n; mret (keys_under prefix objs)
  end.

(** ** lib/s3.py *)

(** What the methods of the client return. *)
Inductive PyVal :=
  | PyNone
  | PyTrue
  | PyStream (s : BytesIO)
  | PyKeys (c : KeyCollection).

(** [if credentials:] holds for a string that is not empty. *)
Definition truthy (credentials : option string) : option string :=
  match credentials with
  | Some s => if String.eqb s "" then None else Some s
  | None => None
  end.

Module S3.

Record BotoS3Client := {
  _config : gmap string (gmap string string);
  _credentials : option string;
  _conn : Connection;
  bucket : BucketHandle;
}.

(** [BotoS3Client.__init__] *)
Definition __init__ (config : gmap string (gmap string string))
    (bucket : string) (credentials : option string) : Py BotoS3Client :=
  connection_args ←
    match truthy credentials with
    | Some section =>
        access ← config_get config section "aws_access_key_id";
        secret ← config_get config section "aws_secret_access_key";
        mret [access; secret]
    | None => mret []
    end;
  in_sys_modules ← boto3_loaded;
  if (in_sys_modules : bool) then
    conn ←
      match truthy credentials with
      | Some section =>
          access ← config_get config section "aws_access_key_id";
          secret ← config_get config section "aws_secret_access_key";
          session ← Boto3.Session access secret;
          Boto3.session_resource session
      | None => Boto3.resource
      end;
    b ← Boto3.Bucket conn bucket;
    mret {| _config := config; _credentials := credentials; _conn := conn; bucket := b |}
  else
    conn ← Boto.S3Connection connection_args;
    b ← Boto.get_bucket conn bucket;
    mret {| _config := config; _credentials := credentials; _conn := conn; bucket := b |}.

(** [BotoS3Client.__boto3_get__]. The [return s3_obj] after the [try]
    statement is reached only from the first branch. *)
Definition __boto3_get__ (self : BotoS3Client) (key : string)
    (local_file : option string) : Py PyVal :=
  let s3_obj := BytesIO_new in
  try_except
    (match local_file with
     | None =>
         s3_obj ← Boto3.download_fileobj (bucket self) key s3_obj;
         let s3_obj := BytesIO_seek s3_obj 0 in
         mret (PyStream s3_obj)
     | Some local_file =>
         Boto3.download_file (bucket self) key local_file;;
         mret PyTrue
     end)
    (λ e, match e with ClientError _ => true | _ => false end)
    (mret PyNone).

(** [BotoS3Client.__boto3_put__] *)
Definition __boto3_put__ (self : BotoS3Client) (key : string) (data : ObjectData)
    : Py PyVal :=
  match data with
  | FileObj fileobj => Boto3.upload_fileobj (bucket self) fileobj key
  | FilePath path => Boto3.upload_file (bucket self) path key
  end;;
  mret PyNone.

(** the request [__boto3_delete__] builds *)
Definition delObject (key : string) : Boto3.Delete :=
  {| Boto3.Objects := [ {| Boto3.Key := key |} ] |}.

(** [BotoS3Client.__boto3_delete__] *)
Definition __boto3_delete__ (self : BotoS3Client) (key : string) : Py PyVal :=
  Boto3.delete_objects (bucket self) (delObject key);;
  mret PyNone.

(** [BotoS3Client.__boto3_list__] *)
Definition __boto3_list__ (self : BotoS3Client) (prefix : option string) : Py PyVal :=
  match prefix with
  | None => c ← Boto3.objects_all (bucket self); mret (PyKeys c)
  | Some prefix => c ← Boto3.objects_filter (bucket self) prefix; mret (PyKeys c)
  end.

(** [BotoS3Client.get]; with a local file the method ends without a
    [return] statement. *)
Definition get (self : BotoS3Client) (key : string) (local_file : option string)
    : Py PyVal :=
  in_sys_modules ← boto3_loaded;
  if (in_sys_modules : bool) then __boto3_get__ self key local_file
  else
    fetched_key ← Boto.get_key (bucket self) key;
    match fetched_key with
    | None => mret PyNone
    | Some fetched_key =>
        match local_file with
        | None =>
            let contents := BytesIO_new in
            contents ← Boto.get_file fetched_key contents;
            let contents := BytesIO_seek contents 0 in
            mret (PyStream contents)
        | Some local_file =>
            Boto.get_contents_to_filename fetched_key local_file;;
            mret PyNone
        end
    end.

(** [BotoS3Client.put] *)
Definition put (self : BotoS3Client) (key : string) (data : ObjectData) : Py PyVal :=
  in_sys_modules ← boto3_loaded;
  if (in_sys_modules : bool) then __boto3_put__ self key data
  else
    remote_key ← Boto.Key (bucket self);
    let remote_key := Boto.set_key remote_key key in
    match data with
    | FileObj fileobj => Boto.set_contents_from_file remote_key fileobj
    | FilePath path => Boto.set_contents_from_filename remote_key path
    end;;
    mret PyNone.

(** [BotoS3Client.delete] *)
Definition delete (self : BotoS3Client) (key : string) : Py PyVal :=
  in_sys_modules ← boto3_loaded;
  if (in_sys_modules : bool) then __boto3_delete__ self key
  else
    remote_key ← Boto.Key (bucket self);
    let remote_key := Boto.set_key remote_key key in
    Boto.delete remote_key;;
    mret PyNone.

(** [BotoS3Client.list] *)
Definition list (self : BotoS3Client) (prefix : option string) : Py PyVal :=
  in_sys_modules ← boto3_loaded;
  if (in_sys_modules : bool) then __boto3_list__ self prefix
  else
    let prefix := match prefix with None => "" | Some p => p end in
    c ← Boto.list (bucket self) prefix;
    mret (PyKeys c).

End S3.

(** ** Vocabulary of the properties *)

(** The variant a call selects: the outcome of ['boto3' in sys.modules]
    when the call runs. *)
Definition selected (w : World) : Variant :=
  if boto3_in_sys_modules w then Boto3 else Boto2.

(** The session a client was constructed in is still the one it runs in:
    the module bound the SDK that [sys.modules] shows, and the bucket
    handle is of that SDK. *)
Definition consistent (self : S3.BotoS3Client) (w : World) : Prop :=
  boto3_bound w = boto3_in_sys_modules w ∧
  handle_variant (S3.bucket self) = selected w.

(** The objects of the bucket the client is bound to, and one of them. *)
Definition objects_of (self : S3.BotoS3Client) (w : World) : option (gmap string (list byte)) :=
  buckets w !! bucket_name (S3.bucket self).

Definition object_at (self : S3.BotoS3Client) (w : World) (key : string) : option (list byte) :=
  objects_of self w ≫= (.!! key).

(** The bytes [data] stands for: what reading the stream from its
    position yields, or the content of the file at the path. *)
Definition data_content (w : World) (data : ObjectData) : option (list byte) :=
  match data with
  | FileObj fileobj => Some (BytesIO_read fileobj)
  | FilePath path => files w !! path
  end.

(** What a variant asks of the data besides being readable: boto refuses
    a stream that is at its end with data before it. *)
Definition accepted_by (v : Variant) (data : ObjectData) : Prop :=
  match v, data with
  | Boto2, FileObj fileobj => at_EOF fileobj = false
  | _, _ => True
  end.

(** The world after the bucket of [self] received [objs]. *)
Definition with_objects (self : S3.BotoS3Client) (objs : gmap string (list byte)) (w : World) : World :=
  set_buckets (<[bucket_name (S3.bucket self) := objs]> (buckets w)) w.

Definition starts_with (prefix : option string) (k : string) : Prop :=
  match prefix with
  | None => True
  | Some p => ∃ rest, k = p ++ rest
  end.

(** The statements of each method that follow the dispatch on
    [sys.modules], that is the boto implementation of the method. *)
Definition boto_get (self : S3.BotoS3Client) (key : string) (local_file : option string)
    : Py PyVal :=
  fetched_key ← Boto.get_key (S3.bucket self) key;
  match fetched_key with
  | None => mret PyNone
  | Some fetched_key =>
      match local_file with
      | None =>
          contents ← Boto.get_file fetched_key BytesIO_new;
          mret (PyStream (BytesIO_seek contents 0))
      | Some local_file =>
          Boto.get_contents_to_filename fetched_key local_file;;
          mret PyNone
      end
  end.

Definition boto_put (self : S3.BotoS3Client) (key : string) (data : ObjectData) : Py PyVal :=
  remote_key ← Boto.Key (S3.bucket self);
  match data with
  | FileObj fileobj => Boto.set_contents_from_file (Boto.set_key remote_key key) fileobj
  | FilePath path => Boto.set_contents_from_filename (Boto.set_key remote_key key) path
  end;;
  mret PyNone.

Definition boto_delete (self : S3.BotoS3Client) (key : string) : Py PyVal :=
  remote_key ← Boto.Key (S3.bucket self);
  Boto.delete (Boto.set_key remote_key key);;
  mret PyNone.

Definition boto_list (self : S3.BotoS3Client) (prefix : option string) : Py PyVal :=
  c ← Boto.list (S3.bucket self) (default "" prefix);
  mret (PyKeys c).

(** The implementation of each operation in a given variant. *)
Definition get_of (v : Variant) :=
  match v with Boto3 => S3.__boto3_get__ | Boto2 => boto_get end.
Definition put_of (v : Variant) :=
  match v with Boto3 => S3.__boto3_put__ | Boto2 => boto_put end.
Definition delete_of (v : Variant) :=
  match v with Boto3 => S3.__boto3_delete__ | Boto2 => boto_delete end.
Definition list_of (v : Variant) :=
  match v with Boto3 => S3.__boto3_list__ | Boto2 => boto_list end.

(** The credentials a connection was made with. *)
Definition conn_keys (conn : Connection) : option (string * string) :=
  match conn with
  | S3ConnectionObj [access; secret] => Some (access, secret)
  | S3ConnectionObj _ => None
  | S3Resource keys => keys
  end.

(** The two credential values construction reads for a section. *)
Definition credential_pair (config : gmap string (gmap string string)) (section : string)
    : option string * option string :=
  (config !! section ≫= (.!! "aws_access_key_id"),
   config !! section ≫= (.!! "aws_secret_access_key")).

(** The same service and files seen from a process of either variant. *)
Definition in_variant (v : Variant) (w : World) : World :=
  {| boto3_bound := bool_decide (v = Boto3);
     boto3_in_sys_modules := bool_decide (v = Boto3);
     condition := condition w; delete_denied := delete_denied w;
     buckets := buckets w; files := files w; writable := writable w |}.

(** Two outcomes agree: same value or exception, same service and files. *)
Definition same_outcome {A} (o2 o3 : result A * World) : Prop :=
  o2.1 = o3.1 ∧ buckets o2.2 = buckets o3.2 ∧ files o2.2 = files o3.2.

(** The keys a [list] call iterates to, as a set. *)
Definition listed (r : result PyVal * World) : option (gset string) :=
  match r with
  | (Return (PyKeys c), w) =>
      match iterate c w with
      | (Return keys, _) => Some (list_to_set keys)
      | _ => None
      end
  | _ => None
  end.

(** The errors of Python's name and attribute lookup. *)
Definition is_lookup_error (e : PyExc) : bool :=
  match e with
  | AttributeError _ | NameError _ => true
  | _ => false
  end.

(** The credentials name is one construction does not look up, or both
    of its values are in the configuration. *)
Definition credentials_resolve (config : gmap string (gmap string string))
    (credentials : option string) : Prop :=
  match truthy credentials with
  | None => True
  | Some section =>
      is_Some (credential_pair config section).1 ∧
      is_Some (credential_pair config section).2
  end.

(** The connection construction makes in a variant. *)
Definition connection_of (v : Variant) (config : gmap string (gmap string string))
    (credentials : option string) : Connection :=
  let keys :=
    section ← truthy credentials;
    access ← (credential_pair config section).1;
    secret ← (credential_pair config section).2;
    Some (access, secret) in
  match v with
  | Boto3 => S3Resource keys
  | Boto2 => S3ConnectionObj (match keys with Some (a, k) => [a; k] | None => [] end)
  end.

(** ** The fixture of test/s3.py: bucket [example-bucket] holding
    [s3-key-1], [s3-key-2], [s3-key-3] with bodies "0", "1", "2". *)
Module Fixture.

Definition kExampleBucket : string := "example-bucket".

Definition objects : gmap string (list byte) :=
  <["s3-key-1" := list_byte_of_string "0"]>
    (<["s3-key-2" := list_byte_of_string "1"]>
       (<["s3-key-3" := list_byte_of_string "2"]> ∅)).

Definition world (v : Variant) (c : Condition) : World :=
  {| boto3_bound := bool_decide (v = Boto3);
     boto3_in_sys_modules := bool_decide (v = Boto3);
     condition := c;
     delete_denied := false;
     buckets := {[ kExampleBucket := objects ]};
     files := {[ "/tmp/upload" := list_byte_of_string "payload" ]};
     writable := String.prefix "/tmp/" |}.

(** the client [BotoS3Client(config, kExampleBucket)] constructs *)
Definition client (v : Variant) : S3.BotoS3Client :=
  match v with
  | Boto3 => {| S3._config := ∅; S3._credentials := None;
                S3._conn := S3Resource None;
                S3.bucket := Boto3Bucket kExampleBucket |}
  | Boto2 => {| S3._config := ∅; S3._credentials := None;
                S3._conn := S3ConnectionObj [];
                S3.bucket := Boto2Bucket kExampleBucket |}
  end.

Definition config : gmap string (gmap string string) :=
  {[ "aws" := {[ "aws_access_key_id" := "AKIDEXAMPLE";
                  "aws_secret_access_key" := "SECRETEXAMPLE" ]} ]}.

End Fixture.

(** ** Basic facts *)

Ltac py_unfold :=
  unfold raise, try_except, on_error, boto3_loaded, put_object, write_file,
    open_for_writing, read_file in *;
  unfold mbind, mret, Py_bind, Py_ret, modify_world in *.

Lemma BytesIO_fill (content : list byte) :
  BytesIO_seek (BytesIO_write BytesIO_new content) 0
  = {| getvalue := content; tell := 0 |}.
Proof.
  unfold BytesIO_seek, BytesIO_write, BytesIO_new. simpl.
  rewrite drop_nil. by rewrite app_nil_r.
Qed.

Lemma prefix_starts_with (p k : string) :
  String.prefix p k = true ↔ ∃ rest, k = p ++ rest.
Proof.
  revert k. induction p as [|a p IH]; intros [|b k]; simpl.
  - split; [intros _; by exists "" | done].
  - split; [intros _; by exists (String b k) | done].
  - split; [done | intros [rest H]; discriminate].
  - destruct (Ascii.ascii_dec a b) as [->|Hne].
    + rewrite IH. split; intros [rest H]; exists rest.
      * by rewrite H.
      * by injection H.
    + split; [done | intros [rest H]; injection H; congruence].
Qed.

(** Each method runs the implementation of the variant selected when it
    is called. *)
Lemma get_dispatch self key local_file w :
  S3.get self key local_file w = get_of (selected w) self key local_file w.
Proof. unfold S3.get, selected, get_of. py_unfold. by destruct (boto3_in_sys_modules w). Qed.

Lemma put_dispatch self key data w :
  S3.put self key data w = put_of (selected w) self key data w.
Proof.
  unfold S3.put, selected, put_of, boto_put. py_unfold.
  destruct (boto3_in_sys_modules w); [done|]. by destruct data.
Qed.

Lemma delete_dispatch self key w :
  S3.delete self key w = delete_of (selected w) self key w.
Proof. unfold S3.delete, selected, delete_of. py_unfold. by destruct (boto3_in_sys_modules w). Qed.

Lemma list_dispatch self prefix w :
  S3.list self prefix w = list_of (selected w) self prefix w.
Proof.
  unfold S3.list, selected, list_of, boto_list. py_unfold.
  destruct (boto3_in_sys_modules w); [done|]. by destruct prefix.
Qed.

(** ** The operations on a reachable service *)

Ltac py_run :=
  unfold S3.get, S3.put, S3.delete, S3.list,
    S3.__boto3_get__, S3.__boto3_put__, S3.__boto3_delete__, S3.__boto3_list__,
    S3.delObject,
    Boto3.download_fileobj, Boto3.download_file, Boto3.upload_fileobj,
    Boto3.upload_file, Boto3.delete_objects, Boto3.objects_all,
    Boto3.objects_filter, Boto3.handle, Boto3.validate, Boto3.request,
    Boto.get_key, Boto.get_file, Boto.get_contents_to_filename, Boto.Key,
    Boto.set_key, Boto.target, Boto.set_contents_from_file,
    Boto.set_contents_from_filename, Boto.send_file, Boto.body, Boto.delete,
    Boto.list, Boto.handle, Boto.request in *;
  py_unfold.

(** Evaluates a run, using the lookups known from the context. *)
Ltac py_eval :=
  py_run;
  repeat first
    [ match goal with
      | H : _ !! _ = _ |- _ => rewrite H
      | H : String.eqb _ _ = _ |- _ => rewrite H
      | H : at_EOF _ = _ |- _ => rewrite H
      | H : ?f ?p = true |- context [if ?f ?p then _ else _] => rewrite H
      | H : ?f ?p = false |- context [if ?f ?p then _ else _] => rewrite H
      end
    | progress simpl ].

(** Splits a consistent client and its world into the two variants. *)
Ltac by_variant self w :=
  let cfg := fresh "cfg" in let cr := fresh "cr" in
  let conn := fresh "conn" in let n := fresh "n" in
  let bound := fresh "bound" in let mods := fresh "mods" in
  let cond := fresh "cond" in let bks := fresh "bks" in let fs := fresh "fs" in
  let dd := fresh "dd" in let wr := fresh "wr" in
  destruct self as [cfg cr conn [n|n]];
  destruct w as [bound mods cond dd bks fs wr];
  unfold consistent, selected, object_at, with_objects, data_content in *;
  unfold objects_of in *; simpl in *;
  match goal with
  | H : _ = _ ∧ _ = _ |- _ => destruct H as [-> H]; destruct mods; try discriminate H; clear H
  end.

(** A key that is not the empty string passes the test of the SDKs. *)
Ltac nonempty H := apply String.eqb_neq in H.

(** Facts about the fixture, by evaluation. *)
Ltac fixture_facts :=
  first [ split; reflexivity | reflexivity | discriminate
        | vm_compute; reflexivity | vm_compute; exact I ].

Lemma get_reachable self w key :
  consistent self w → condition w = Reachable → key ≠ "" →
  S3.get self key None w
  = (Return (match object_at self w key with
             | Some content => PyStream {| getvalue := content; tell := 0 |}
             | None => PyNone
             end), w).
Proof.
  intros Hc Hr Hne. nonempty Hne. by_variant self w; subst cond;
    (destruct (bks !! n) as [objs|] eqn:Hb;
     [destruct (objs !! key) as [content|] eqn:Hk|]);
    py_eval; by rewrite ?BytesIO_fill.
Qed.

Lemma put_reachable self w key data objs content :
  consistent self w → condition w = Reachable → key ≠ "" →
  objects_of self w = Some objs →
  accepted_by (selected w) data → data_content w data = Some content →
  S3.put self key data w
  = (Return PyNone, with_objects self (<[key := content]> objs) w).
Proof.
  intros Hc Hr Hne Ho Ha Hd. nonempty Hne. unfold accepted_by in Ha.
  by_variant self w; subst cond;
    destruct data as [c|path]; simpl in *; simplify_eq; by py_eval.
Qed.

Lemma delete_reachable self w key objs :
  consistent self w → condition w = Reachable → delete_denied w = false →
  key ≠ "" → objects_of self w = Some objs →
  S3.delete self key w = (Return PyNone, with_objects self (delete key objs) w).
Proof.
  intros Hc Hr Hd Hne Ho. nonempty Hne.
  by_variant self w; subst cond dd; by py_eval.
Qed.

Lemma consistent_with_objects self objs w :
  consistent self w → consistent self (with_objects self objs w).
Proof. by intros [??]. Qed.

Lemma objects_of_with_objects self objs w :
  objects_of self (with_objects self objs w) = Some objs.
Proof. unfold objects_of, with_objects. simpl. apply lookup_insert_eq. Qed.

Lemma object_at_with_objects self objs w key :
  object_at self (with_objects self objs w) key = objs !! key.
Proof. unfold object_at. by rewrite objects_of_with_objects. Qed.

(** The world is left alone by a write that changes nothing. *)
Lemma with_objects_id self objs w :
  objects_of self w = Some objs → with_objects self objs w = w.
Proof.
  unfold objects_of, with_objects, set_buckets. intros H.
  rewrite (insert_id _ _ _ H). by destruct w.
Qed.

(** ** Not found is a normal return *)



(** ** Reading back what was written *)





(** ** Deleting *)



(** ** What a write can touch *)

(** [put] either raises and leaves the world as it was, or returns
    [None] having stored the bytes of [data] at [key]. *)
Lemma put_outcome self key data w :
  (∃ e, S3.put self key data w = (Raise e, w)) ∨
  (∃ objs content, objects_of self w = Some objs ∧ data_content w data = Some content ∧
     S3.put self key data w
     = (Return PyNone, with_objects self (<[key := content]> objs) w)).
Proof.
  destruct self as [cfg cr conn [n|n]], w as [[] [] [] dd bks fs wr], data as [c|path];
    unfold objects_of, with_objects, data_content; simpl;
    destruct (String.eqb key "") eqn:He;
    try (destruct (at_EOF c) eqn:Hc);
    try (destruct (fs !! path) as [content|] eqn:Hf);
    destruct (bks !! n) as [objs|] eqn:Hb;
    py_eval;
    first [ left; eexists; reflexivity
          | right; eexists _, _; repeat split; reflexivity ].
Qed.

(** [delete] raises and leaves the world as it was, or returns [None]:
    then it has removed [key], unless the service refused the deletion
    inside the response to the batch request of the boto3 variant, which
    the variant does not read, and nothing changed. *)
Lemma delete_outcome self key w :
  (∃ e, S3.delete self key w = (Raise e, w)) ∨
  (delete_denied w = true ∧ S3.delete self key w = (Return PyNone, w)) ∨
  (∃ objs, objects_of self w = Some objs ∧ delete_denied w = false ∧
     S3.delete self key w = (Return PyNone, with_objects self (delete key objs) w)).
Proof.
  destruct self as [cfg cr conn [n|n]], w as [[] [] [] [] bks fs wr];
    unfold objects_of, with_objects; simpl;
    destruct (String.eqb key "") eqn:He;
    destruct (bks !! n) as [objs|] eqn:Hb;
    py_eval;
    first [ left; eexists; reflexivity
          | right; left; split; reflexivity
          | right; right; eexists; repeat split; reflexivity ].
Qed.

(** In every world, whatever the variant and whatever the outcome, [put]
    leaves the world as it is or stores one object at [key] in the bucket
    of the client. *)
Lemma put_effect self key data w :
  (S3.put self key data w).2 = w ∨
  ∃ objs content, objects_of self w = Some objs ∧
    (S3.put self key data w).2 = with_objects self (<[key := content]> objs) w.
Proof.
  destruct (put_outcome self key data w) as [[e ->]|(objs & content & Ho & _ & ->)];
    eauto.
Qed.

(** Likewise [delete] leaves the world as it is or removes [key]. *)
Lemma delete_effect self key w :
  (S3.delete self key w).2 = w ∨
  ∃ objs, objects_of self w = Some objs ∧
    (S3.delete self key w).2 = with_objects self (delete key objs) w.
Proof.
  destruct (delete_outcome self key w) as [[e ->]|[[_ ->]|(objs & Ho & _ & ->)]];
    eauto.
Qed.

(** C10: for distinct keys [k] and [k'], neither [put(k, data)] nor
    [delete(k)] changes the object stored at [k'], in every world and
    both variants; the request the boto3 variant of [delete] sends lists
    exactly the one key [k]. *)
Theorem put_delete_frame self w key key' data :
  key ≠ key' →
  object_at self (S3.put self key data w).2 key' = object_at self w key' ∧
  object_at self (S3.delete self key w).2 key' = object_at self w key' ∧
  Boto3.Key <$> Boto3.Objects (S3.delObject key) = [key].
Proof.
  intros Hne. split; [|split; [|done]].
  - destruct (put_effect self key data w) as [->|(objs & content & Ho & ->)]; [done|].
    rewrite object_at_with_objects, lookup_insert_ne by done.
    unfold object_at. by rewrite Ho.
  - destruct (delete_effect self key w) as [->|(objs & Ho & ->)]; [done|].
    rewrite object_at_with_objects, lookup_delete_ne by done.
    unfold object_at. by rewrite Ho.
Qed.

Lemma put_delete_frame_witness :
  object_at (Fixture.client Boto3)
    (S3.put (Fixture.client Boto3) "s3-key-1" (FileObj (BytesIO_of (list_byte_of_string "new")))
       (Fixture.world Boto3 Reachable)).2 "s3-key-2"
  = object_at (Fixture.client Boto3) (Fixture.world Boto3 Reachable) "s3-key-2" ∧
  object_at (Fixture.client Boto3)
    (S3.delete (Fixture.client Boto3) "s3-key-1" (Fixture.world Boto3 Reachable)).2 "s3-key-2"
  = object_at (Fixture.client Boto3) (Fixture.world Boto3 Reachable) "s3-key-2" ∧
  Boto3.Key <$> Boto3.Objects (S3.delObject "s3-key-1") = ["s3-key-1"].
Proof. apply put_delete_frame. discriminate. Defined.

(** ** Listing *)

Lemma elem_of_keys_under prefix (objs : gmap string (list byte)) k :
  k ∈ keys_under prefix objs ↔ is_Some (objs !! k) ∧ starts_with (Some (default "" prefix)) k.
Proof.
  unfold keys_under, starts_with.
  rewrite list_elem_of_filter, bool_decide_spec, prefix_starts_with, list_elem_of_fmap.
  split.
  - intros [Hp [[k' content] [-> Hin]]]. apply elem_of_map_to_list in Hin. eauto.
  - intros [[content Hk] Hp]. split; [done|].
    exists (k, content). split; [done|]. by apply elem_of_map_to_list.
Qed.

Lemma NoDup_keys_under prefix (objs : gmap string (list byte)) :
  NoDup (keys_under prefix objs).
Proof. apply NoDup_filter, NoDup_fst_map_to_list. Qed.

Lemma starts_with_default prefix k :
  starts_with (Some (default "" prefix)) k ↔ starts_with prefix k.
Proof.
  destruct prefix as [p|]; simpl; [done|]. split; [done|]. intros _. by exists k.
Qed.

(** [list] makes no request: it returns the lazy collection of the
    selected variant. *)
Lemma list_returns self w prefix :
  consistent self w →
  S3.list self prefix w
  = (Return (PyKeys (Collection (S3.bucket self)
       (match selected w with Boto3 => prefix | Boto2 => Some (default "" prefix) end))), w).
Proof. intros Hc. by_variant self w; destruct prefix; by py_eval. Qed.

Lemma iterate_reachable b prefix w objs :
  condition w = Reachable → buckets w !! bucket_name b = Some objs →
  iterate (Collection b prefix) w = (Return (keys_under prefix objs), w).
Proof.
  destruct b as [n|n], w as [bound mods cond dd bks fs wr]; simpl; intros -> Hb;
    unfold iterate; by py_eval.
Qed.

(** C8: [list(p)] returns, without contacting the service, a collection
    whose iteration on a reachable service yields, each once, exactly the
    keys of the bucket that start with [p], and all the keys for
    [list(None)]; when no key qualifies, the bucket being empty or not,
    the iteration yields the empty sequence and raises nothing. *)
Theorem list_exact self w prefix w' objs :
  consistent self w →
  condition w' = Reachable → objects_of self w' = Some objs →
  ∃ c keys,
    S3.list self prefix w = (Return (PyKeys c), w) ∧
    iterate c w' = (Return keys, w') ∧
    NoDup keys ∧
    (∀ k, k ∈ keys ↔ is_Some (objs !! k) ∧ starts_with prefix k) ∧
    ((∀ k, is_Some (objs !! k) → ¬ starts_with prefix k) → keys = []).
Proof.
  intros Hc Hr Ho. eexists _, _. split; [by apply list_returns|].
  split; [by apply iterate_reachable|].
  set (p := match selected w with Boto3 => prefix | Boto2 => Some (default "" prefix) end).
  assert (Hp : ∀ k, starts_with (Some (default "" p)) k ↔ starts_with prefix k).
  { intros k. subst p. destruct (selected w); simpl; apply starts_with_default. }
  assert (Hin : ∀ k, k ∈ keys_under p objs ↔ is_Some (objs !! k) ∧ starts_with prefix k).
  { intros k. by rewrite elem_of_keys_under, Hp. }
  split; [apply NoDup_keys_under|]. split; [done|].
  intros Hnone. destruct (keys_under p objs) as [|k keys] eqn:Hk; [done|].
  destruct (proj1 (Hin k)) as [Hs Hw]; [left|]. by destruct (Hnone k).
Qed.

Lemma list_exact_witness :
  ∃ c keys,
    S3.list (Fixture.client Boto2) (Some "s3-key") (Fixture.world Boto2 Reachable)
      = (Return (PyKeys c), Fixture.world Boto2 Reachable) ∧
    iterate c (Fixture.world Boto2 Reachable) = (Return keys, Fixture.world Boto2 Reachable) ∧
    NoDup keys ∧
    (∀ k, k ∈ keys ↔ is_Some (Fixture.objects !! k) ∧ starts_with (Some "s3-key") k) ∧
    ((∀ k, is_Some (Fixture.objects !! k) → ¬ starts_with (Some "s3-key") k) → keys = []).
Proof.
  apply list_exact;
    first [ split; reflexivity | reflexivity | vm_compute; reflexivity ].
Defined.

(** ** Failures of the service during [get] *)

(** No response from the service: the error of the SDK leaves [get], in
    both variants. *)
Lemma get_unreachable_raises self w key local_file :
  consistent self w → condition w = Unreachable → key ≠ "" →
  ∃ e, S3.get self key local_file w = (Raise e, w) ∧ is_BackendError e = true.
Proof.
  intros Hc Hr Hne. nonempty Hne. by_variant self w; subst cond; destruct local_file;
    py_eval; eauto.
Qed.

(** The boto variant raises when the service denies the request, and
    returns [None] for a key only when the key is absent. *)
Lemma boto_get_denied_raises self w key local_file :
  consistent self w → selected w = Boto2 → condition w = Denied →
  S3.get self key local_file w = (Raise (S3ResponseError 403), w).
Proof.
  intros Hc Hv Hr. by_variant self w; try discriminate Hv; subst cond;
    destruct local_file; by py_eval.
Qed.

Lemma boto_get_None_absent self w key :
  consistent self w → selected w = Boto2 →
  (S3.get self key None w).1 = Return PyNone → object_at self w key = None.
Proof.
  intros Hc Hv. by_variant self w; try discriminate Hv.
  destruct cond; try by py_eval.
  destruct (bks !! n) as [objs|] eqn:Hb; [|done].
  destruct (String.eqb key "") eqn:He; [by py_eval|].
  destruct (objs !! key) eqn:Hk; [|done]. by py_eval.
Qed.

(** The boto3 variant catches every [ClientError]: when the service
    denies the request, [get] returns [None] for every key that is not
    the empty string. *)
Lemma boto3_get_denied_None self w key local_file :
  consistent self w → selected w = Boto3 → condition w = Denied → key ≠ "" →
  S3.get self key local_file w = (Return PyNone, w).
Proof.
  intros Hc Hv Hr Hne. nonempty Hne.
  by_variant self w; try discriminate Hv; subst cond;
    destruct local_file; by py_eval.
Qed.

(** C1, at the failing input: in the boto3 variant, with the service
    answering 403, [get] of the stored key [s3-key-2] returns [None], the
    very value it returns for the absent key [s3-key-9] on a reachable
    service; the boto variant raises on the same input. *)
Theorem get_boto3_denied_like_absent :
  S3.get (Fixture.client Boto3) "s3-key-2" None (Fixture.world Boto3 Denied)
    = (Return PyNone, Fixture.world Boto3 Denied) ∧
  S3.get (Fixture.client Boto3) "s3-key-9" None (Fixture.world Boto3 Reachable)
    = (Return PyNone, Fixture.world Boto3 Reachable) ∧
  S3.get (Fixture.client Boto2) "s3-key-2" None (Fixture.world Boto2 Denied)
    = (Raise (S3ResponseError 403), Fixture.world Boto2 Denied).
Proof.
  split; [|split].
  - by apply boto3_get_denied_None.
  - by apply get_reachable.
  - by apply boto_get_denied_raises.
Qed.

(** ** The two variants side by side *)

(** [get] with a local file on a reachable service, for a key that is
    not the empty string: the content goes to the path in both variants,
    when a file can be written there; the boto3 variant then returns
    [True], the boto variant ends without a value. *)
Lemma get_to_file_reachable self w key path :
  consistent self w → condition w = Reachable → key ≠ "" →
  S3.get self key (Some path) w
  = match object_at self w key with
    | Some content =>
        if writable w path
        then (Return (match selected w with Boto3 => PyTrue | Boto2 => PyNone end),
              set_files (<[path := content]> (files w)) w)
        else (Raise (IOError path), w)
    | None => (Return PyNone, w)
    end.
Proof.
  intros Hc Hr Hne. nonempty Hne. by_variant self w; subst cond;
    (destruct (bks !! n) as [objs|] eqn:Hb;
     [destruct (objs !! key) as [content|] eqn:Hk; [destruct (wr path) eqn:Hw|]|]);
    by py_eval.
Qed.

(** C2, at the failing input: [get("s3-key-1", "/tmp/download")] on the
    fixture writes the body "0" to the path in both variants; the boto3
    variant returns [True], the boto variant returns [None], which is
    also what it returns for a key that does not exist. *)
Theorem get_to_file_variants_differ :
  let written v :=
    set_files (<["/tmp/download" := list_byte_of_string "0"]> (files (Fixture.world v Reachable)))
      (Fixture.world v Reachable) in
  S3.get (Fixture.client Boto3) "s3-key-1" (Some "/tmp/download") (Fixture.world Boto3 Reachable)
    = (Return PyTrue, written Boto3) ∧
  S3.get (Fixture.client Boto2) "s3-key-1" (Some "/tmp/download") (Fixture.world Boto2 Reachable)
    = (Return PyNone, written Boto2) ∧
  S3.get (Fixture.client Boto2) "s3-key-9" (Some "/tmp/download") (Fixture.world Boto2 Reachable)
    = (Return PyNone, Fixture.world Boto2 Reachable).
Proof.
  intros written. split; [|split]; by rewrite get_to_file_reachable.
Qed.

(** Apart from the value of [get] with a local file, the variants agree on
    a reachable service that does not refuse deletions, the bucket being
    there, for a key that is not the empty string and data that boto
    accepts: [get] without a local file, [put], [delete], and the keys a
    [list] iterates to. *)
Lemma variants_agree_reachable self2 self3 n w key data prefix :
  S3.bucket self2 = Boto2Bucket n → S3.bucket self3 = Boto3Bucket n →
  condition w = Reachable → delete_denied w = false → is_Some (buckets w !! n) →
  key ≠ "" → accepted_by Boto2 data →
  same_outcome (S3.get self2 key None (in_variant Boto2 w))
               (S3.get self3 key None (in_variant Boto3 w)) ∧
  same_outcome (S3.put self2 key data (in_variant Boto2 w))
               (S3.put self3 key data (in_variant Boto3 w)) ∧
  same_outcome (S3.delete self2 key (in_variant Boto2 w))
               (S3.delete self3 key (in_variant Boto3 w)) ∧
  ∃ c2 c3,
    S3.list self2 prefix (in_variant Boto2 w) = (Return (PyKeys c2), in_variant Boto2 w) ∧
    S3.list self3 prefix (in_variant Boto3 w) = (Return (PyKeys c3), in_variant Boto3 w) ∧
    same_outcome (iterate c2 (in_variant Boto2 w)) (iterate c3 (in_variant Boto3 w)).
Proof.
  destruct self2 as [cfg2 cr2 conn2 b2], self3 as [cfg3 cr3 conn3 b3],
    w as [bound mods cond dd bks fs wr].
  simpl. intros -> -> -> -> [objs Hb] Hne Ha. nonempty Hne.
  unfold same_outcome, in_variant. simpl.
  repeat split.
  - destruct (objs !! key) eqn:Hk; by py_eval.
  - destruct (objs !! key) eqn:Hk; by py_eval.
  - destruct (objs !! key) eqn:Hk; by py_eval.
  - destruct data as [c|path]; [|destruct (fs !! path) eqn:Hf]; simpl in Ha; by py_eval.
  - destruct data as [c|path]; [|destruct (fs !! path) eqn:Hf]; simpl in Ha; by py_eval.
  - destruct data as [c|path]; [|destruct (fs !! path) eqn:Hf]; simpl in Ha; by py_eval.
  - by py_eval.
  - by py_eval.
  - by py_eval.
  - destruct prefix as [p|]; eexists _, _;
      (split; [by py_eval|split; [by py_eval|]]);
      unfold iterate; by py_eval.
Qed.

(** ** Construction *)

Ltac init_run :=
  unfold S3.__init__, config_get, Boto3.Session, Boto3.session_resource,
    Boto3.resource, Boto3.name, Boto3.Bucket, Boto.S3Connection,
    Boto.get_bucket, Boto.request in *;
  py_unfold;
  repeat first
    [ match goal with
      | H : truthy _ = _ |- _ => rewrite H
      | H : option_bind _ _ _ _ = _ |- _ => rewrite H
      | H : _ !! _ = _ |- _ => rewrite H
      end
    | progress simpl ].

(** Construction tests [sys.modules] once and leaves the world as it
    was; the bucket handle of the client it returns is of the variant
    selected by that test. *)
Lemma init_selects config b credentials w self w' :
  S3.__init__ config b credentials w = (Return self, w') →
  w' = w ∧ handle_variant (S3.bucket self) = selected w.
Proof.
  destruct w as [[] [] [] dd bks fs wr];
    (destruct (truthy credentials) as [s|] eqn:Hs;
     [destruct (config !! s ≫= (.!! "aws_access_key_id")) as [access|] eqn:Ha;
      [destruct (config !! s ≫= (.!! "aws_secret_access_key")) as [secret|] eqn:Hk|]|]);
    destruct (bks !! b) as [objs|] eqn:Hb;
    init_run; intros H; by simplify_eq.
Qed.

(** C3, as stated, fails: a client constructed while [boto3] is in
    [sys.modules] and called after the entry was removed runs the boto
    code of [get] on its boto3 bucket, because every method tests
    [sys.modules] again. *)
Lemma variant_reselected_per_call :
  ¬ (∀ config b credentials w0 self w0' w,
       S3.__init__ config b credentials w0 = (Return self, w0') →
       (∀ key local_file,
          S3.get self key local_file w = get_of (selected w0) self key local_file w) ∧
       (∀ key data, S3.put self key data w = put_of (selected w0) self key data w) ∧
       (∀ key, S3.delete self key w = delete_of (selected w0) self key w) ∧
       (∀ prefix, S3.list self prefix w = list_of (selected w0) self prefix w)).
Proof.
  intros H.
  destruct (H ∅ Fixture.kExampleBucket None (Fixture.world Boto3 Reachable)
              (Fixture.client Boto3) (Fixture.world Boto3 Reachable)
              (set_sys_modules false (Fixture.world Boto3 Reachable)) eq_refl)
    as [Hget _].
  specialize (Hget "s3-key-2" None). vm_compute in Hget. discriminate Hget.
Qed.

(** C3, amended: construction tests ['boto3' in sys.modules] once and
    binds a bucket handle of the variant selected; every method tests it
    again when called, and whenever the answer at the call is the one
    construction got, the method runs the implementation of the variant
    selected at construction. *)
Theorem variant_of_construction config b credentials w0 self w0' w :
  S3.__init__ config b credentials w0 = (Return self, w0') →
  boto3_in_sys_modules w = boto3_in_sys_modules w0 →
  handle_variant (S3.bucket self) = selected w0 ∧
  (∀ key local_file,
     S3.get self key local_file w = get_of (selected w0) self key local_file w) ∧
  (∀ key data, S3.put self key data w = put_of (selected w0) self key data w) ∧
  (∀ key, S3.delete self key w = delete_of (selected w0) self key w) ∧
  (∀ prefix, S3.list self prefix w = list_of (selected w0) self prefix w).
Proof.
  intros Hinit Hsame.
  assert (Hsel : selected w = selected w0) by (unfold selected; by rewrite Hsame).
  split; [by destruct (init_selects _ _ _ _ _ _ Hinit)|].
  rewrite <- Hsel. repeat split; intros.
  - apply get_dispatch.
  - apply put_dispatch.
  - apply delete_dispatch.
  - apply list_dispatch.
Qed.

Lemma variant_of_construction_witness :
  handle_variant (S3.bucket (Fixture.client Boto2)) = selected (Fixture.world Boto2 Reachable) ∧
  (∀ key local_file,
     S3.get (Fixture.client Boto2) key local_file (Fixture.world Boto2 Denied)
     = get_of (selected (Fixture.world Boto2 Reachable)) (Fixture.client Boto2)
         key local_file (Fixture.world Boto2 Denied)) ∧
  (∀ key data,
     S3.put (Fixture.client Boto2) key data (Fixture.world Boto2 Denied)
     = put_of (selected (Fixture.world Boto2 Reachable)) (Fixture.client Boto2)
         key data (Fixture.world Boto2 Denied)) ∧
  (∀ key,
     S3.delete (Fixture.client Boto2) key (Fixture.world Boto2 Denied)
     = delete_of (selected (Fixture.world Boto2 Reachable)) (Fixture.client Boto2)
         key (Fixture.world Boto2 Denied)) ∧
  (∀ prefix,
     S3.list (Fixture.client Boto2) prefix (Fixture.world Boto2 Denied)
     = list_of (selected (Fixture.world Boto2 Reachable)) (Fixture.client Boto2)
         prefix (Fixture.world Boto2 Denied)).
Proof.
  apply (variant_of_construction ∅ Fixture.kExampleBucket None
           (Fixture.world Boto2 Reachable) (Fixture.client Boto2)
           (Fixture.world Boto2 Reachable) (Fixture.world Boto2 Denied));
    reflexivity.
Defined.

Example get_after_sys_modules_change :
  S3.get (Fixture.client Boto3) "s3-key-2" None
    (set_sys_modules false (Fixture.world Boto3 Reachable))
  = (Raise (AttributeError "get_key"), set_sys_modules false (Fixture.world Boto3 Reachable)).
Proof. reflexivity. Qed.

(** *** Credentials *)

Lemma truthy_nonempty section : section ≠ "" → truthy (Some section) = Some section.
Proof.
  intros Hne. unfold truthy. destruct (String.eqb_spec section ""); [done|done].
Qed.

(** C9, as stated, fails: the credentials name [""] is not [None], the
    empty configuration has no section of that name, and construction
    returns a client on ambient credentials without reading the
    configuration. *)
Lemma init_empty_credentials_name :
  ¬ (∀ config b section w,
       (credential_pair config section).1 = None ∨
       (credential_pair config section).2 = None →
       ∃ option,
         S3.__init__ config b (Some section) w
         = (Raise (ConfigurationError section option), w)).
Proof.
  intros H.
  destruct (H ∅ Fixture.kExampleBucket "" (Fixture.world Boto3 Reachable))
    as [option Hraise]; [by left|].
  vm_compute in Hraise. discriminate Hraise.
Qed.

Example empty_name_constructs_on_ambient :
  S3.__init__ ∅ Fixture.kExampleBucket (Some "") (Fixture.world Boto3 Reachable)
  = (Return {| S3._config := ∅; S3._credentials := Some "";
               S3._conn := S3Resource None;
               S3.bucket := Boto3Bucket Fixture.kExampleBucket |},
     Fixture.world Boto3 Reachable).
Proof. reflexivity. Qed.

(** C9, amended: for a credentials name that is not empty, construction
    reads the access key and the secret key from the section of that
    name. When the section or one of the two keys is missing it raises
    the error of the configuration, naming the first missing key, with
    nothing else done. When both are there, the connection of every
    client it returns carries exactly these two values, and it does
    return one: always in the boto3 variant, and in the boto variant when
    the service is reachable and the bucket exists. *)
Theorem init_resolves_credentials config b section w :
  section ≠ "" →
  match credential_pair config section with
  | (None, _) =>
      S3.__init__ config b (Some section) w
      = (Raise (ConfigurationError section "aws_access_key_id"), w)
  | (Some _, None) =>
      S3.__init__ config b (Some section) w
      = (Raise (ConfigurationError section "aws_secret_access_key"), w)
  | (Some access, Some secret) =>
      (∀ self w', S3.__init__ config b (Some section) w = (Return self, w') →
         conn_keys (S3._conn self) = Some (access, secret) ∧ w' = w) ∧
      (boto3_bound w = boto3_in_sys_modules w →
       selected w = Boto3 ∨ (condition w = Reachable ∧ is_Some (buckets w !! b)) →
       ∃ self, S3.__init__ config b (Some section) w = (Return self, w))
  end.
Proof.
  intros Hne. apply truthy_nonempty in Hne. unfold credential_pair.
  destruct (config !! section ≫= (.!! "aws_access_key_id")) as [access|] eqn:Ha;
    [destruct (config !! section ≫= (.!! "aws_secret_access_key")) as [secret|] eqn:Hk|].
  - split.
    + intros self w'. destruct w as [[] [] [] dd bks fs wr];
        destruct (bks !! b) as [objs|] eqn:Hb;
        init_run; intros H; by simplify_eq.
    + unfold selected. destruct w as [bound [] cond dd bks fs wr]; simpl; intros -> Hok.
      * init_run. eauto.
      * destruct Hok as [|[-> [objs Hb]]]; [done|]. init_run. eauto.
  - by init_run.
  - by init_run.
Qed.

Lemma init_resolves_credentials_witness :
  ((∀ self w',
      S3.__init__ Fixture.config Fixture.kExampleBucket (Some "aws")
        (Fixture.world Boto2 Reachable) = (Return self, w') →
      conn_keys (S3._conn self) = Some ("AKIDEXAMPLE", "SECRETEXAMPLE") ∧
      w' = Fixture.world Boto2 Reachable) ∧
   (boto3_bound (Fixture.world Boto2 Reachable)
    = boto3_in_sys_modules (Fixture.world Boto2 Reachable) →
    selected (Fixture.world Boto2 Reachable) = Boto3 ∨
    (condition (Fixture.world Boto2 Reachable) = Reachable ∧
     is_Some (buckets (Fixture.world Boto2 Reachable) !! Fixture.kExampleBucket)) →
    ∃ self,
      S3.__init__ Fixture.config Fixture.kExampleBucket (Some "aws")
        (Fixture.world Boto2 Reachable) = (Return self, Fixture.world Boto2 Reachable))) ∧
  S3.__init__ Fixture.config Fixture.kExampleBucket (Some "staging")
    (Fixture.world Boto3 Reachable)
  = (Raise (ConfigurationError "staging" "aws_access_key_id"), Fixture.world Boto3 Reachable).
Proof.
  split.
  - apply (init_resolves_credentials Fixture.config Fixture.kExampleBucket "aws"
             (Fixture.world Boto2 Reachable)). discriminate.
  - apply (init_resolves_credentials Fixture.config Fixture.kExampleBucket "staging"
             (Fixture.world Boto3 Reachable)). discriminate.
Defined.

(** ** The fixture, end to end *)

(** The fixture client is the one construction returns. *)
Example fixture_client_constructed (v : Variant) :
  S3.__init__ ∅ Fixture.kExampleBucket None (Fixture.world v Reachable)
  = (Return (Fixture.client v), Fixture.world v Reachable).
Proof. by destruct v. Qed.

(** The scenario of the test module: list, get, delete, get and list again. *)
Example scenario (v : Variant) :
  let self := Fixture.client v in
  let w := Fixture.world v Reachable in
  listed (S3.list self (Some "s3-key") w)
    = Some {[ "s3-key-1"; "s3-key-2"; "s3-key-3" ]} ∧
  (S3.get self "s3-key-2" None w).1
    = Return (PyStream {| getvalue := list_byte_of_string "1"; tell := 0 |}) ∧
  let w' := (S3.delete self "s3-key-2" w).2 in
  (S3.get self "s3-key-2" None w').1 = Return PyNone ∧
  listed (S3.list self (Some "s3-key") w') = Some {[ "s3-key-1"; "s3-key-3" ]}.
Proof. destruct v; repeat split; reflexivity. Qed.

(** ** Further properties of lib/s3.py *)

(** *** What the operations can change *)

(** [get] with a local file leaves the world as it was or writes to the
    path: the content of the object, for a key that is not the empty
    string. *)
Lemma get_to_file_outcome self key path w :
  (S3.get self key (Some path) w).2 = w ∨
  ∃ content, (key ≠ "" → object_at self w key = Some content) ∧
    (S3.get self key (Some path) w).2 = set_files (<[path := content]> (files w)) w.
Proof.
  destruct self as [cfg cr conn [n|n]], w as [[] [] [] dd bks fs wr];
    unfold object_at, objects_of; simpl;
    destruct (String.eqb key "") eqn:He;
    (destruct (bks !! n) as [objs|] eqn:Hb;
     [destruct (objs !! key) as [content|] eqn:Hk|]);
    destruct (wr path) eqn:Hw;
    py_eval; eauto;
    right; eexists; (split; [|reflexivity]); intros Hne; nonempty Hne;
    first [congruence | done].
Qed.

(** X1: [get] without a local file has no effect: whatever the variant,
    the state of the session, the answer of the service and the outcome
    of the call, the service and the local files are as before. *)
Theorem get_leaves_world self key w :
  (S3.get self key None w).2 = w.
Proof.
  destruct self as [cfg cr conn [n|n]], w as [[] [] [] dd bks fs wr];
    destruct (String.eqb key "") eqn:He;
    (destruct (bks !! n) as [objs|] eqn:Hb;
     [destruct (objs !! key) as [content|] eqn:Hk|]);
    by py_eval.
Qed.


(** X3: on a reachable service, [get] with a local file of a key, not
    the empty string, that is not in the bucket returns [None] and leaves
    the file system as it was: no file is created or emptied at the
    path, whether or not one could be written there. Both variants. *)
Theorem get_to_file_absent self key path w :
  consistent self w → condition w = Reachable → key ≠ "" →
  object_at self w key = None →
  S3.get self key (Some path) w = (Return PyNone, w).
Proof. intros Hc Hr Hne Ha. rewrite get_to_file_reachable by done. by rewrite Ha. Qed.

Lemma get_to_file_absent_witness :
  S3.get (Fixture.client Boto3) "s3-key-9" (Some "/tmp/upload") (Fixture.world Boto3 Reachable)
  = (Return PyNone, Fixture.world Boto3 Reachable).
Proof. apply get_to_file_absent; fixture_facts. Defined.

(** X4: a [put] that raises has stored nothing: the world is exactly as
    before the call. In every variant, session and service condition. *)
Theorem put_raise_unchanged self key data w e :
  (S3.put self key data w).1 = Raise e →
  (S3.put self key data w).2 = w.
Proof.
  destruct (put_outcome self key data w) as [[e' ->]|(objs & content & _ & _ & ->)];
    [done|discriminate].
Qed.

Lemma put_raise_unchanged_witness :
  (S3.put (Fixture.client Boto2) "s3-key-1" (FilePath "/tmp/upload")
     (Fixture.world Boto2 Denied)).2 = Fixture.world Boto2 Denied.
Proof. apply (put_raise_unchanged _ _ _ _ (S3ResponseError 403)). reflexivity. Defined.

(** X5: a [put] that returns has stored the bytes of [data] at the key:
    it returns [None], [data] was readable, and the object at the key of
    the client's bucket now holds those bytes. In every variant, session
    and service condition. *)
Theorem put_return_stored self key data w v :
  (S3.put self key data w).1 = Return v →
  v = PyNone ∧
  ∃ content, data_content w data = Some content ∧
    object_at self (S3.put self key data w).2 key = Some content.
Proof.
  destruct (put_outcome self key data w) as [[e' ->]|(objs & content & _ & Hd & ->)];
    [discriminate|].
  simpl. intros [= <-]. split; [done|]. exists content. split; [done|].
  by rewrite object_at_with_objects, lookup_insert_eq.
Qed.

Lemma put_return_stored_witness :
  PyNone = PyNone ∧
  ∃ content,
    data_content (Fixture.world Boto3 Reachable) (FilePath "/tmp/upload") = Some content ∧
    object_at (Fixture.client Boto3)
      (S3.put (Fixture.client Boto3) "s3-key-7" (FilePath "/tmp/upload")
         (Fixture.world Boto3 Reachable)).2 "s3-key-7" = Some content.
Proof. apply put_return_stored. reflexivity. Defined.

(** X6: a [delete] that raises has removed nothing. One that returns has
    returned [None], and then no object is at the key, except when the
    service refuses deletions: the boto3 variant does not read the
    response in which the service says so, returns as well, and the
    world is as it was. In every variant, session and service
    condition. *)
Theorem delete_outcomes self key w :
  match (S3.delete self key w).1 with
  | Raise _ => (S3.delete self key w).2 = w
  | Return v =>
      v = PyNone ∧
      (object_at self (S3.delete self key w).2 key = None ∨
       delete_denied w = true ∧ (S3.delete self key w).2 = w)
  end.
Proof.
  destruct (delete_outcome self key w) as [[e' ->]|[[Hd ->]|(objs & _ & _ & ->)]].
  - done.
  - simpl. split; [done|]. by right.
  - simpl. split; [done|]. left. by rewrite object_at_with_objects, lookup_delete_eq.
Qed.

(** X7: no operation of a client reaches another bucket: the objects of
    every bucket other than the one the client is bound to are the same
    before and after [get], [put], [delete] and [list], whatever the
    outcome. *)
Theorem other_buckets_untouched self w other key data local_file prefix :
  other ≠ bucket_name (S3.bucket self) →
  buckets (S3.get self key local_file w).2 !! other = buckets w !! other ∧
  buckets (S3.put self key data w).2 !! other = buckets w !! other ∧
  buckets (S3.delete self key w).2 !! other = buckets w !! other ∧
  buckets (S3.list self prefix w).2 !! other = buckets w !! other.
Proof.
  intros Hne. repeat split.
  - destruct local_file as [path|].
    + by destruct (get_to_file_outcome self key path w) as [->|(content & _ & ->)].
    + destruct self as [cfg cr conn [n|n]], w as [[] [] [] dd bks fs wr];
        destruct (String.eqb key "") eqn:He;
        (destruct (bks !! n) as [objs|] eqn:Hb;
         [destruct (objs !! key) as [content|] eqn:Hk|]);
        by py_eval.
  - destruct (put_outcome self key data w) as [[e ->]|(objs & content & _ & _ & ->)];
      [done|]. simpl. by rewrite lookup_insert_ne.
  - destruct (delete_outcome self key w) as [[e ->]|[[_ ->]|(objs & _ & _ & ->)]];
      [done|done|]. simpl. by rewrite lookup_insert_ne.
  - destruct self as [cfg cr conn [n|n]], w as [[] [] [] dd bks fs wr], prefix; by py_eval.
Qed.

Lemma other_buckets_untouched_witness :
  let self := Fixture.client Boto3 in
  let w := Fixture.world Boto3 Reachable in
  buckets (S3.get self "s3-key-1" (Some "/tmp/x") w).2 !! "another-bucket"
    = buckets w !! "another-bucket" ∧
  buckets (S3.put self "s3-key-1" (FileObj (BytesIO_of [])) w).2 !! "another-bucket"
    = buckets w !! "another-bucket" ∧
  buckets (S3.delete self "s3-key-1" w).2 !! "another-bucket"
    = buckets w !! "another-bucket" ∧
  buckets (S3.list self None w).2 !! "another-bucket" = buckets w !! "another-bucket".
Proof. apply other_buckets_untouched. discriminate. Defined.

(** *** Failures of [put] and [delete] *)

(** X8: [put] of a path at which there is no file raises the error of
    opening the file, before any request: nothing is stored, whatever the
    service would have answered. Both variants. *)
Theorem put_missing_file self key path w :
  consistent self w → files w !! path = None →
  S3.put self key (FilePath path) w = (Raise (IOError path), w).
Proof.
  intros Hc Hf. by_variant self w; destruct cond; by py_eval.
Qed.

Lemma put_missing_file_witness :
  S3.put (Fixture.client Boto2) "s3-key-1" (FilePath "/tmp/nothing-here")
    (Fixture.world Boto2 Unreachable)
  = (Raise (IOError "/tmp/nothing-here"), Fixture.world Boto2 Unreachable).
Proof.
  apply put_missing_file; first [ split; reflexivity | vm_compute; reflexivity ].
Defined.

(** X9: neither [put] nor [delete] catches an error of the SDK: when the
    service does not answer or denies the request, for a key that is not
    the empty string and data the variant accepts, both raise the backend
    error of the SDK and the world is as before. Both variants. *)
Theorem put_delete_backend_failure self key data content w :
  consistent self w → condition w ≠ Reachable → key ≠ "" →
  accepted_by (selected w) data → data_content w data = Some content →
  (∃ e, S3.put self key data w = (Raise e, w) ∧ is_BackendError e = true) ∧
  (∃ e, S3.delete self key w = (Raise e, w) ∧ is_BackendError e = true).
Proof.
  intros Hc Hr Hne Ha Hd. nonempty Hne. unfold accepted_by in Ha.
  by_variant self w; destruct cond; try done;
    destruct data as [c|path]; simpl in Hd, Ha; split; py_eval; eauto.
Qed.

Lemma put_delete_backend_failure_witness :
  (∃ e, S3.put (Fixture.client Boto3) "s3-key-1" (FilePath "/tmp/upload")
          (Fixture.world Boto3 Denied) = (Raise e, Fixture.world Boto3 Denied) ∧
        is_BackendError e = true) ∧
  (∃ e, S3.delete (Fixture.client Boto3) "s3-key-1" (Fixture.world Boto3 Denied)
        = (Raise e, Fixture.world Boto3 Denied) ∧
        is_BackendError e = true).
Proof.
  apply (put_delete_backend_failure _ _ _ (list_byte_of_string "payload"));
    fixture_facts.
Defined.

(** X22: the boto3 variant refuses the empty string as a key before any
    request: [get], with or without a local file, [put] of readable data
    and [delete] raise the parameter error of botocore, which [get] does
    not turn into [None], and the world is as before, whatever the
    service would have answered. *)
Theorem boto3_empty_key_raises self data content local_file w :
  consistent self w → selected w = Boto3 →
  data_content w data = Some content →
  S3.get self "" local_file w = (Raise ParamValidationError, w) ∧
  S3.put self "" data w = (Raise ParamValidationError, w) ∧
  S3.delete self "" w = (Raise ParamValidationError, w).
Proof.
  intros Hc Hv Hd. by_variant self w; try discriminate Hv.
  destruct data as [c|path], local_file; simpl in Hd; repeat split; by py_eval.
Qed.

Lemma boto3_empty_key_raises_witness :
  S3.get (Fixture.client Boto3) "" None (Fixture.world Boto3 Reachable)
    = (Raise ParamValidationError, Fixture.world Boto3 Reachable) ∧
  S3.put (Fixture.client Boto3) "" (FilePath "/tmp/upload") (Fixture.world Boto3 Reachable)
    = (Raise ParamValidationError, Fixture.world Boto3 Reachable) ∧
  S3.delete (Fixture.client Boto3) "" (Fixture.world Boto3 Reachable)
    = (Raise ParamValidationError, Fixture.world Boto3 Reachable).
Proof.
  apply (boto3_empty_key_raises _ _ (list_byte_of_string "payload")); fixture_facts.
Defined.

(** X23: the boto variant refuses a stream that is at its end with data
    before it: [put] raises [AttributeError] before any request and
    stores nothing, whatever the key and the answer of the service. *)
Theorem boto_put_at_EOF_raises self key fileobj w :
  consistent self w → selected w = Boto2 → at_EOF fileobj = true →
  ∃ message, S3.put self key (FileObj fileobj) w = (Raise (AttributeError message), w).
Proof.
  intros Hc Hv He. by_variant self w; try discriminate Hv. py_eval. eauto.
Qed.

Lemma boto_put_at_EOF_raises_witness :
  ∃ message,
    S3.put (Fixture.client Boto2) "s3-key-1"
      (FileObj {| getvalue := list_byte_of_string "payload"; tell := 7 |})
      (Fixture.world Boto2 Reachable)
    = (Raise (AttributeError message), Fixture.world Boto2 Reachable).
Proof. apply boto_put_at_EOF_raises; fixture_facts. Defined.

(** *** How the operations compose *)

Lemma with_objects_twice self objs1 objs2 w :
  with_objects self objs1 (with_objects self objs2 w) = with_objects self objs1 w.
Proof.
  unfold with_objects, set_buckets. simpl. by rewrite insert_insert_eq.
Qed.

(** X10: [delete] is idempotent: on a reachable service that does not
    refuse deletions, for a key that is not the empty string, a second
    [delete] of the key returns as the first did and changes nothing.
    Both variants. *)
Theorem delete_twice self key objs w :
  consistent self w → condition w = Reachable → delete_denied w = false →
  key ≠ "" → objects_of self w = Some objs →
  ∃ w', S3.delete self key w = (Return PyNone, w') ∧
        S3.delete self key w' = (Return PyNone, w').
Proof.
  intros Hc Hr Hd Hne Ho. eexists. split; [by apply delete_reachable|].
  rewrite (delete_reachable _ _ _ (delete key objs));
    [|by apply consistent_with_objects|done|done|done|apply objects_of_with_objects].
  by rewrite delete_delete_eq, with_objects_twice.
Qed.

Lemma delete_twice_witness :
  ∃ w', S3.delete (Fixture.client Boto2) "s3-key-3" (Fixture.world Boto2 Reachable)
        = (Return PyNone, w') ∧
        S3.delete (Fixture.client Boto2) "s3-key-3" w' = (Return PyNone, w').
Proof. apply (delete_twice _ _ Fixture.objects); fixture_facts. Defined.

(** X11: on a reachable service that does not refuse deletions, for a
    key that is not the empty string and data the variant accepts,
    [put] of the key followed by [delete] of the key both return and
    leave no object at the key; when the key was not in the bucket, the
    world is restored exactly. Both variants. *)
Theorem put_then_delete self key data content objs w :
  consistent self w → condition w = Reachable → delete_denied w = false →
  key ≠ "" → objects_of self w = Some objs →
  accepted_by (selected w) data → data_content w data = Some content →
  ∃ w1 w2,
    S3.put self key data w = (Return PyNone, w1) ∧
    S3.delete self key w1 = (Return PyNone, w2) ∧
    object_at self w2 key = None ∧
    (objs !! key = None → w2 = w).
Proof.
  intros Hc Hr Hdd Hne Ho Ha Hd. eexists _, _. split; [by apply put_reachable|].
  split; [|split].
  - apply delete_reachable; [by apply consistent_with_objects|done|done|done|].
    apply objects_of_with_objects.
  - by rewrite object_at_with_objects, lookup_delete_eq.
  - intros Hk. rewrite with_objects_twice, delete_insert_eq, delete_id by done.
    by apply with_objects_id.
Qed.

Lemma put_then_delete_witness :
  ∃ w1 w2,
    S3.put (Fixture.client Boto3) "s3-key-4" (FilePath "/tmp/upload")
      (Fixture.world Boto3 Reachable) = (Return PyNone, w1) ∧
    S3.delete (Fixture.client Boto3) "s3-key-4" w1 = (Return PyNone, w2) ∧
    object_at (Fixture.client Boto3) w2 "s3-key-4" = None ∧
    (Fixture.objects !! "s3-key-4" = None → w2 = Fixture.world Boto3 Reachable).
Proof.
  apply (put_then_delete _ _ _ (list_byte_of_string "payload")); fixture_facts.
Defined.

(** X12: an object can be copied through a local file: on a reachable
    service, for keys that are not the empty string and a path at which a
    file can be written, [get] of a stored key to the path, then [put] of
    that path at a second key, and [get] of the second key returns a
    stream at offset 0 with the content of the first. Both variants. *)
Theorem copy_through_file self key key' path content w :
  consistent self w → condition w = Reachable →
  key ≠ "" → key' ≠ "" → writable w path = true →
  object_at self w key = Some content →
  ∃ v w1 w2,
    S3.get self key (Some path) w = (Return v, w1) ∧
    S3.put self key' (FilePath path) w1 = (Return PyNone, w2) ∧
    S3.get self key' None w2
    = (Return (PyStream {| getvalue := content; tell := 0 |}), w2).
Proof.
  intros Hc Hr Hne Hne' Hw Hk.
  destruct (objects_of self w) as [objs|] eqn:Ho;
    [|by unfold object_at in Hk; rewrite Ho in Hk].
  eexists _, _, _. split; [|split].
  - rewrite get_to_file_reachable by done. by rewrite Hk, Hw.
  - apply (put_reachable _ _ _ _ objs content);
      [done|done|done|done|unfold accepted_by; by case_match|].
    simpl. apply lookup_insert_eq.
  - rewrite get_reachable; [|by apply consistent_with_objects|done|done].
    by rewrite object_at_with_objects, lookup_insert_eq.
Qed.

Lemma copy_through_file_witness :
  ∃ v w1 w2,
    S3.get (Fixture.client Boto2) "s3-key-2" (Some "/tmp/copy") (Fixture.world Boto2 Reachable)
      = (Return v, w1) ∧
    S3.put (Fixture.client Boto2) "s3-key-5" (FilePath "/tmp/copy") w1 = (Return PyNone, w2) ∧
    S3.get (Fixture.client Boto2) "s3-key-5" None w2
    = (Return (PyStream {| getvalue := list_byte_of_string "1"; tell := 0 |}), w2).
Proof. apply copy_through_file; fixture_facts. Defined.

(** *** Construction *)

(** X13: the client construction returns keeps the configuration and
    the credentials name it was given, is bound to the bucket of the
    given name, and holds the connection of the selected variant, made
    with the two values of the section or, without a usable name, with
    none; construction changes nothing in the world. *)
Theorem init_binds config b credentials w self w' :
  S3.__init__ config b credentials w = (Return self, w') →
  S3._config self = config ∧ S3._credentials self = credentials ∧
  bucket_name (S3.bucket self) = b ∧
  S3._conn self = connection_of (selected w) config credentials ∧
  w' = w.
Proof.
  unfold connection_of, credential_pair, selected.
  destruct w as [[] [] [] dd bks fs wr];
    (destruct (truthy credentials) as [s|] eqn:Hs;
     [destruct (config !! s ≫= (.!! "aws_access_key_id")) as [access|] eqn:Ha;
      [destruct (config !! s ≫= (.!! "aws_secret_access_key")) as [secret|] eqn:Hk|]|]);
    destruct (bks !! b) as [objs|] eqn:Hb;
    init_run; intros H; by simplify_eq.
Qed.

Lemma init_binds_witness :
  S3._config (Fixture.client Boto2) = ∅ ∧ S3._credentials (Fixture.client Boto2) = None ∧
  bucket_name (S3.bucket (Fixture.client Boto2)) = Fixture.kExampleBucket ∧
  S3._conn (Fixture.client Boto2)
    = connection_of (selected (Fixture.world Boto2 Reachable)) ∅ None ∧
  Fixture.world Boto2 Reachable = Fixture.world Boto2 Reachable.
Proof. apply (init_binds ∅ Fixture.kExampleBucket None). reflexivity. Defined.

(** X14: in the boto3 variant construction makes no request: with
    credentials that resolve it returns the client whatever the service
    would answer and whether or not the bucket exists. *)
Theorem init_boto3_no_request config b credentials w :
  boto3_bound w = true → boto3_in_sys_modules w = true →
  credentials_resolve config credentials →
  S3.__init__ config b credentials w
  = (Return {| S3._config := config; S3._credentials := credentials;
               S3._conn := connection_of Boto3 config credentials;
               S3.bucket := Boto3Bucket b |}, w).
Proof.
  unfold credentials_resolve, connection_of, credential_pair.
  destruct w as [bound mods cond dd bks fs wr]. simpl. intros -> ->.
  destruct (truthy credentials) as [s|] eqn:Hs; simpl.
  - intros [[access Ha] [secret Hk]]. by init_run.
  - intros _. by init_run.
Qed.

Lemma init_boto3_no_request_witness :
  S3.__init__ Fixture.config "no-such-bucket" (Some "aws") (Fixture.world Boto3 Unreachable)
  = (Return {| S3._config := Fixture.config; S3._credentials := Some "aws";
               S3._conn := connection_of Boto3 Fixture.config (Some "aws");
               S3.bucket := Boto3Bucket "no-such-bucket" |},
     Fixture.world Boto3 Unreachable).
Proof.
  apply init_boto3_no_request; [reflexivity|reflexivity|].
  split; vm_compute; eauto.
Defined.

(** X15: in the boto variant construction asks the service for the
    bucket: it raises the error of the SDK when the service does not
    answer, denies the request or has no bucket of that name, and returns
    the client otherwise. *)
Theorem init_boto_validates config b credentials w :
  boto3_bound w = false → boto3_in_sys_modules w = false →
  credentials_resolve config credentials →
  S3.__init__ config b credentials w
  = (match condition w, buckets w !! b with
     | Unreachable, _ => Raise SocketError
     | Denied, _ => Raise (S3ResponseError 403)
     | Reachable, None => Raise (S3ResponseError 404)
     | Reachable, Some _ =>
         Return {| S3._config := config; S3._credentials := credentials;
                   S3._conn := connection_of Boto2 config credentials;
                   S3.bucket := Boto2Bucket b |}
     end, w).
Proof.
  unfold credentials_resolve, connection_of, credential_pair.
  destruct w as [bound mods cond dd bks fs wr]. simpl. intros -> ->.
  destruct (bks !! b) as [objs|] eqn:Hb;
    (destruct (truthy credentials) as [s|] eqn:Hs; simpl;
     [intros [[access Ha] [secret Hk]]|intros _]);
    destruct cond; by init_run.
Qed.

Lemma init_boto_validates_witness :
  S3.__init__ Fixture.config "no-such-bucket" (Some "aws") (Fixture.world Boto2 Reachable)
  = (Raise (S3ResponseError 404), Fixture.world Boto2 Reachable).
Proof.
  apply (init_boto_validates Fixture.config "no-such-bucket" (Some "aws")
           (Fixture.world Boto2 Reachable)); [reflexivity|reflexivity|].
  split; vm_compute; eauto.
Defined.

(** *** Listing, continued *)

(** The keys a listing of the client iterates to on a reachable service. *)
Lemma listing_reachable self w prefix w' objs :
  consistent self w →
  condition w' = Reachable → objects_of self w' = Some objs →
  ∃ c keys,
    S3.list self prefix w = (Return (PyKeys c), w) ∧
    iterate c w' = (Return keys, w') ∧
    (∀ k, k ∈ keys ↔ is_Some (objs !! k) ∧ starts_with prefix k).
Proof.
  intros Hc Hr Ho. eexists _, _. split; [by apply list_returns|].
  split; [by apply iterate_reachable|].
  intros k. rewrite elem_of_keys_under, <- (starts_with_default prefix k).
  by destruct (selected w).
Qed.

(** X16: the empty prefix restricts nothing: [list("")] and [list(None)]
    return collections that iterate to the same outcome in every world.
    Both variants. *)
Theorem list_empty_prefix self w :
  consistent self w →
  ∃ c c',
    S3.list self (Some "") w = (Return (PyKeys c), w) ∧
    S3.list self None w = (Return (PyKeys c'), w) ∧
    ∀ w', iterate c w' = iterate c' w'.
Proof.
  intros Hc. eexists _, _. split; [by apply list_returns|].
  split; [by apply list_returns|].
  intros w'. by destruct (selected w), (S3.bucket self).
Qed.

Lemma list_empty_prefix_witness :
  ∃ c c',
    S3.list (Fixture.client Boto3) (Some "") (Fixture.world Boto3 Reachable)
      = (Return (PyKeys c), Fixture.world Boto3 Reachable) ∧
    S3.list (Fixture.client Boto3) None (Fixture.world Boto3 Reachable)
      = (Return (PyKeys c'), Fixture.world Boto3 Reachable) ∧
    ∀ w', iterate c w' = iterate c' w'.
Proof. apply list_empty_prefix. split; reflexivity. Defined.

(** X17: a listing made after a write reflects it. On a reachable
    service that does not refuse deletions, for a key that is not the
    empty string and data the variant accepts: after [put(key, data)] the
    keys under a prefix are those that were there together with [key],
    when [key] starts with the prefix; after [delete(key)] they are those
    that were there apart from [key]. Both variants. *)
Theorem list_after_write self key data content objs prefix w :
  consistent self w → condition w = Reachable → delete_denied w = false →
  key ≠ "" → objects_of self w = Some objs →
  accepted_by (selected w) data → data_content w data = Some content →
  (∃ w1 c keys,
     S3.put self key data w = (Return PyNone, w1) ∧
     S3.list self prefix w1 = (Return (PyKeys c), w1) ∧
     iterate c w1 = (Return keys, w1) ∧
     ∀ k, k ∈ keys ↔ (k = key ∨ is_Some (objs !! k)) ∧ starts_with prefix k) ∧
  (∃ w1 c keys,
     S3.delete self key w = (Return PyNone, w1) ∧
     S3.list self prefix w1 = (Return (PyKeys c), w1) ∧
     iterate c w1 = (Return keys, w1) ∧
     ∀ k, k ∈ keys ↔ (k ≠ key ∧ is_Some (objs !! k)) ∧ starts_with prefix k).
Proof.
  intros Hc Hr Hdd Hne Ho Ha Hd. split.
  - destruct (listing_reachable self
                (with_objects self (<[key := content]> objs) w) prefix
                (with_objects self (<[key := content]> objs) w)
                (<[key := content]> objs))
      as (c & keys & Hl & Hi & Hin);
      [by apply consistent_with_objects|done|apply objects_of_with_objects|].
    exists (with_objects self (<[key := content]> objs) w), c, keys.
    split; [by apply put_reachable|]. split; [done|]. split; [done|].
    intros k. rewrite Hin, lookup_insert_is_Some.
    destruct (decide (key = k)); intuition (subst; auto).
  - destruct (listing_reachable self
                (with_objects self (delete key objs) w) prefix
                (with_objects self (delete key objs) w)
                (delete key objs))
      as (c & keys & Hl & Hi & Hin);
      [by apply consistent_with_objects|done|apply objects_of_with_objects|].
    exists (with_objects self (delete key objs) w), c, keys.
    split; [by apply delete_reachable|]. split; [done|]. split; [done|].
    intros k. rewrite Hin, lookup_delete_is_Some. intuition (subst; auto).
Qed.

Lemma list_after_write_witness :
  let self := Fixture.client Boto3 in
  let w := Fixture.world Boto3 Reachable in
  (∃ w1 c keys,
     S3.put self "s3-key-4" (FilePath "/tmp/upload") w = (Return PyNone, w1) ∧
     S3.list self (Some "s3-") w1 = (Return (PyKeys c), w1) ∧
     iterate c w1 = (Return keys, w1) ∧
     ∀ k, k ∈ keys ↔
       (k = "s3-key-4" ∨ is_Some (Fixture.objects !! k)) ∧ starts_with (Some "s3-") k) ∧
  (∃ w1 c keys,
     S3.delete self "s3-key-4" w = (Return PyNone, w1) ∧
     S3.list self (Some "s3-") w1 = (Return (PyKeys c), w1) ∧
     iterate c w1 = (Return keys, w1) ∧
     ∀ k, k ∈ keys ↔
       (k ≠ "s3-key-4" ∧ is_Some (Fixture.objects !! k)) ∧ starts_with (Some "s3-") k).
Proof.
  apply (list_after_write _ _ _ (list_byte_of_string "payload")); fixture_facts.
Defined.

(** X18: [list] itself never fails on the service: it returns its
    collection with the world unchanged whatever the service would
    answer, and the failure shows when the collection is iterated, as the
    backend error of the SDK. Both variants. *)
Theorem list_fails_on_iteration self prefix w :
  consistent self w →
  ∃ c, S3.list self prefix w = (Return (PyKeys c), w) ∧
       ∀ w', condition w' ≠ Reachable →
         ∃ e, iterate c w' = (Raise e, w') ∧ is_BackendError e = true.
Proof.
  intros Hc. eexists. split; [by apply list_returns|].
  intros [bound mods cond dd bks fs wr]. simpl. intros Hr.
  destruct (S3.bucket self) as [n|n], cond; try done; unfold iterate; py_eval; eauto.
Qed.

Lemma list_fails_on_iteration_witness :
  ∃ c, S3.list (Fixture.client Boto2) None (Fixture.world Boto2 Unreachable)
       = (Return (PyKeys c), Fixture.world Boto2 Unreachable) ∧
       ∀ w', condition w' ≠ Reachable →
         ∃ e, iterate c w' = (Raise e, w') ∧ is_BackendError e = true.
Proof. apply list_fails_on_iteration. split; reflexivity. Defined.

(** *** What [get] returns *)

(** X19: a stream returned by [get] for a key that is not the empty
    string is never stale or partial: whenever [get] without a local file
    returns a stream, the service was reachable, the stream holds exactly
    the content stored at the key, and it is positioned at offset 0. In
    every variant and session. *)
Theorem get_stream_sound self key w s :
  key ≠ "" →
  (S3.get self key None w).1 = Return (PyStream s) →
  condition w = Reachable ∧ object_at self w key = Some (getvalue s) ∧ tell s = 0.
Proof.
  intros Hne. nonempty Hne.
  destruct self as [cfg cr conn [n|n]], w as [[] [] [] dd bks fs wr];
    unfold object_at, objects_of; simpl;
    (destruct (bks !! n) as [objs|] eqn:Hb;
     [destruct (objs !! key) as [content|] eqn:Hk|]);
    py_eval; rewrite ?BytesIO_fill; intros H; by simplify_eq.
Qed.

Lemma get_stream_sound_witness :
  condition (Fixture.world Boto3 Reachable) = Reachable ∧
  object_at (Fixture.client Boto3) (Fixture.world Boto3 Reachable) "s3-key-3"
    = Some (getvalue {| getvalue := list_byte_of_string "2"; tell := 0 |}) ∧
  tell {| getvalue := list_byte_of_string "2"; tell := 0 |} = 0.
Proof. apply get_stream_sound; [discriminate|reflexivity]. Defined.

(** X20: in the boto variant, for a key that is not the empty string,
    [None] from [get] without a local file means that the key is absent
    and nothing else: [get] returns [None] exactly when the service is
    reachable and holds no object at the key. *)
Theorem boto_get_None_iff self key w :
  consistent self w → selected w = Boto2 → key ≠ "" →
  (S3.get self key None w).1 = Return PyNone
  ↔ condition w = Reachable ∧ object_at self w key = None.
Proof.
  intros Hc Hv Hne. nonempty Hne. by_variant self w; try discriminate Hv.
  destruct cond;
    (destruct (bks !! n) as [objs|] eqn:Hb;
     [destruct (objs !! key) as [content|] eqn:Hk|]);
    py_eval; split; intros H; try done; by destruct H.
Qed.

Lemma boto_get_None_iff_witness :
  (S3.get (Fixture.client Boto2) "s3-key-9" None (Fixture.world Boto2 Reachable)).1
    = Return PyNone
  ↔ condition (Fixture.world Boto2 Reachable) = Reachable ∧
    object_at (Fixture.client Boto2) (Fixture.world Boto2 Reachable) "s3-key-9" = None.
Proof. apply boto_get_None_iff; fixture_facts. Defined.

(** *** A session that changed after construction *)

(** X21: when [sys.modules] no longer shows the SDK the client was
    constructed with, every operation stops at Python's name or attribute
    lookup: [get], [put], [delete] and [list] raise [AttributeError] or
    [NameError] and nothing is read from or written to the service or the
    local files. *)
Theorem stale_session_raises self w key local_file data prefix :
  handle_variant (S3.bucket self) ≠ selected w →
  (∃ e, S3.get self key local_file w = (Raise e, w) ∧ is_lookup_error e = true) ∧
  (∃ e, S3.put self key data w = (Raise e, w) ∧ is_lookup_error e = true) ∧
  (∃ e, S3.delete self key w = (Raise e, w) ∧ is_lookup_error e = true) ∧
  (∃ e, S3.list self prefix w = (Raise e, w) ∧ is_lookup_error e = true).
Proof.
  unfold selected.
  destruct self as [cfg cr conn [n|n]], w as [bound [] cond dd bks fs wr]; simpl;
    intros Hne; try done; destruct bound, local_file, data, prefix;
    repeat split; py_eval; eauto.
Qed.

Lemma stale_session_raises_witness :
  let w := set_sys_modules false (Fixture.world Boto3 Reachable) in
  (∃ e, S3.get (Fixture.client Boto3) "s3-key-1" None w = (Raise e, w) ∧
        is_lookup_error e = true) ∧
  (∃ e, S3.put (Fixture.client Boto3) "s3-key-1" (FileObj (BytesIO_of [])) w = (Raise e, w) ∧
        is_lookup_error e = true) ∧
  (∃ e, S3.delete (Fixture.client Boto3) "s3-key-1" w = (Raise e, w) ∧
        is_lookup_error e = true) ∧
  (∃ e, S3.list (Fixture.client Boto3) None w = (Raise e, w) ∧
        is_lookup_error e = true).
Proof. apply stale_session_raises. discriminate. Defined.
